(** * RBAC, ownership and dynamic-model validation of the CRUD platform

    A shallow embedding of [src/lib/rbac.ts], [src/lib/models.ts],
    [src/lib/dataStore.ts] and of the two data route handlers
    ([src/app/api/data/[modelName]/route.ts] and
    [src/app/api/data/[modelName]/[id]/route.ts]), followed by the
    properties of the specification that are stated about them.

    Conventions of the embedding.
    - A JavaScript value that reaches the handlers is a JSON document,
      [undefined] (a missing property) or a member of [Object.prototype]
      read through a plain object: type [JsVal].
    - A JavaScript number is an IEEE 754 binary64 value: [spec_float] of the
      Standard Library, compared with [SFltb].
    - A JavaScript string is a [string]; one [ascii] stands for one UTF-16
      code unit below 256, so [String.length] is [str.length].
    - A plain object is the finite map of its own properties
      ([gmap string JsVal]); reading [obj[k]] falls back on the members of
      [Object.prototype], and writing [obj[k] = v] goes through the setter
      of [__proto__].
    - An exception is an explicit result: [Completion A] is either a normal
      value or a thrown error.
    - The built-ins of the host that are not code of this repository
      (string/number conversion, the text of a built-in function, [RegExp],
      [URL], [Date]) are the fields of a
      [Host]; every definition that calls one takes the host as a
      parameter. *)

From Stdlib Require Import ZArith Bool Ascii String List.
From Stdlib Require Import Floats.SpecFloat.
From stdpp Require Import gmap strings list fin_maps pretty.

Set Warnings "-register-all".
Local Open Scope string_scope.

(* ===================================================================== *)
(** * JavaScript values and coercions *)
(* ===================================================================== *)

Module Js.

(** Numbers: binary64. *)
Definition float64 : Type := spec_float.

Definition NaN : float64 := S754_nan.
Definition Infinity : float64 := S754_infinity false.
Definition pos_zero : float64 := S754_zero false.

(** The double nearest to an integer (exact below 2^53). *)
Definition of_Z (z : Z) : float64 :=
  binary_normalize 53 1024 z 0 false.

Definition one : float64 := of_Z 1.

(** The global [isNaN] on a number. *)
Definition isNaN (n : float64) : bool :=
  match n with
  | S754_nan => true
  | _ => false
  end.

(** [Number.isFinite]: neither NaN nor an infinity. *)
Definition isFinite (n : float64) : bool :=
  match n with
  | S754_zero _ | S754_finite _ _ _ => true
  | S754_infinity _ | S754_nan => false
  end.

(** [a < b] and [a > b] on numbers (false when either is NaN). *)
Definition lt (a b : float64) : bool := SFltb a b.
Definition gt (a b : float64) : bool := SFltb b a.

(** A parsed JSON document, [undefined], or what a plain object without
    an own property [k] gives for [obj[k]] when [k] names a member of
    [Object.prototype]: a built-in function, or the prototype itself for
    [__proto__]. *)
Inductive JsVal : Type :=
| JUndefined
| JNull
| JBool (b : bool)
| JNum (n : float64)
| JStr (s : string)
| JArr (l : list JsVal)
| JObj (o : gmap string JsVal)
| JProto (k : string).

(** A plain object: the map of its own properties. *)
Abbreviation JsObject := (gmap string JsVal).

(** The property names of [Object.prototype]. *)
Definition Object_prototype_names : list string :=
  ["constructor"; "__defineGetter__"; "__defineSetter__"; "hasOwnProperty";
   "__lookupGetter__"; "__lookupSetter__"; "isPrototypeOf";
   "propertyIsEnumerable"; "toString"; "valueOf"; "__proto__";
   "toLocaleString"].

Definition inherited (k : string) : bool :=
  existsb (String.eqb k) Object_prototype_names.

(** [obj[k]] on a plain object: the own property, else the member of
    [Object.prototype] of that name, else [undefined]. *)
Definition get (obj : JsObject) (k : string) : JsVal :=
  match obj !! k with
  | Some v => v
  | None => if inherited k then JProto k else JUndefined
  end.

(** [obj[k] = v] on a plain object, for a [v] that is not an object: an own
    property is written, or created.  For [__proto__] without an own
    property of that name the write reaches the setter of
    [Object.prototype], which ignores a value that is not an object. *)
Definition assign {V : Type} (obj : gmap string V) (k : string) (v : V)
  : gmap string V :=
  if String.eqb k "__proto__" && negb (bool_decide (is_Some (obj !! k)))
  then obj
  else <[k := v]> obj.

(** [{...a, ...b}]: the properties of [b] win. *)
Definition spread (a b : JsObject) : JsObject := b ∪ a.

(** ToBoolean. *)
Definition truthy (v : JsVal) : bool :=
  match v with
  | JUndefined | JNull => false
  | JBool b => b
  | JNum (S754_zero _) | JNum S754_nan => false
  | JNum _ => true
  | JStr s => negb (String.eqb s "")
  | JArr _ | JObj _ | JProto _ => true
  end.

(** [v === s] for a string [s]. *)
Definition strict_eq_string (v : JsVal) (s : string) : bool :=
  match v with
  | JStr s' => String.eqb s' s
  | _ => false
  end.

(** [typeof v === 'boolean']. *)
Definition is_boolean (v : JsVal) : bool :=
  match v with
  | JBool _ => true
  | _ => false
  end.

(** Truthiness of an optional string ([undefined] or [''] is falsy). *)
Definition truthy_string (o : option string) : bool :=
  match o with
  | Some s => negb (String.eqb s "")
  | None => false
  end.

(** Truthiness of an optional boolean. *)
Definition truthy_bool (o : option bool) : bool :=
  match o with
  | Some b => b
  | None => false
  end.

(** ** Completions *)

Inductive JsError : Type := TypeError | SyntaxError.

Inductive Completion (A : Type) : Type :=
| Normal (a : A)
| Throw (e : JsError).
Arguments Normal {A} a.
Arguments Throw {A} e.

Definition bind {A B} (c : Completion A) (k : A -> Completion B) : Completion B :=
  match c with
  | Normal a => k a
  | Throw e => Throw e
  end.

#[export] Instance Completion_ret : MRet Completion := @Normal.
#[export] Instance Completion_bind : MBind Completion :=
  fun A B k c => bind c k.

(** ** The host *)

Record Host : Type := {
  (** [Number(s)] for a string [s]. *)
  StringToNumber : string -> float64;
  (** [String(n)] for a number [n]. *)
  NumberToString : float64 -> string;
  (** [String(f)] for the built-in function [f] that [Object.prototype]
      holds under a name. *)
  FunctionToString : string -> string;
  (** [new RegExp(p)]: [None] when it throws a SyntaxError, else the
      compiled expression's [test]. *)
  RegExp_new : string -> option (string -> bool);
  (** whether [new URL(s)] returns (it throws a TypeError otherwise). *)
  URL_parses : string -> bool;
  (** [new Date(s).getTime()]: NaN for an invalid date. *)
  Date_getTime : string -> float64;
}.

Section Coercions.
Context (host : Host).

(** [String(v)].  An array joins its elements with commas, [null] and
    [undefined] elements printing as nothing; a plain object prints
    through [Object.prototype.toString] unless an own property
    [toString] hides it: a JSON value is never callable, and
    [valueOf] then returns the object, so no primitive is found.  A
    built-in function prints its source text, the prototype itself as a
    plain object. *)
Fixpoint ToString (v : JsVal) : Completion string :=
  match v with
  | JUndefined => Normal "undefined"
  | JNull => Normal "null"
  | JBool b => Normal (if b then "true" else "false")
  | JNum n => Normal (NumberToString host n)
  | JStr s => Normal s
  | JArr l =>
      let element (x : JsVal) : Completion string :=
        match x with
        | JUndefined | JNull => Normal ""
        | _ => ToString x
        end in
      (fix join (l : list JsVal) : Completion string :=
         match l with
         | [] => Normal ""
         | [x] => element x
         | x :: rest =>
             bind (element x) (fun s =>
             bind (join rest) (fun r => Normal (s +:+ "," +:+ r)))
         end) l
  | JObj o =>
      match o !! "toString" with
      | Some _ => Throw TypeError
      | None => Normal "[object Object]"
      end
  | JProto k =>
      Normal (if String.eqb k "__proto__" then "[object Object]"
              else FunctionToString host k)
  end.

(** [Number(v)]. *)
Definition ToNumber (v : JsVal) : Completion float64 :=
  match v with
  | JUndefined => Normal NaN
  | JNull => Normal pos_zero
  | JBool b => Normal (if b then one else pos_zero)
  | JNum n => Normal n
  | JStr s => Normal (StringToNumber host s)
  | JArr _ | JObj _ | JProto _ =>
      bind (ToString v) (fun s => Normal (StringToNumber host s))
  end.

End Coercions.

End Js.
Export Js.

(* ===================================================================== *)
(** * lib/auth.ts: roles and users *)
(* ===================================================================== *)

Inductive UserRole : Type := Admin | Manager | Viewer.

#[export] Instance UserRole_eq_dec : EqDecision UserRole.
Proof. solve_decision. Defined.

Record User : Type := {
  user_id : string;
  user_role : UserRole;
}.

(* ===================================================================== *)
(** * lib/rbac.ts *)
(* ===================================================================== *)

Inductive Action : Type := Create | Read | Update | Delete.

Record RBACRule : Type := {
  rule_create : option (list UserRole);
  rule_read : option (list UserRole);
  rule_update : option (list UserRole);
  rule_delete : option (list UserRole);
}.

(** [permissions[action]]. *)
Definition rule_entry (permissions : RBACRule) (action : Action)
  : option (list UserRole) :=
  match action with
  | Create => rule_create permissions
  | Read => rule_read permissions
  | Update => rule_update permissions
  | Delete => rule_delete permissions
  end.

(** [allowedRoles.includes(userRole)]. *)
Definition includes (allowedRoles : list UserRole) (userRole : UserRole) : bool :=
  existsb (fun r => bool_decide (r = userRole)) allowedRoles.

(** Truthiness of [permissions[action]]: an array is truthy whatever it
    holds, so only a missing entry is falsy. *)
Definition entry_truthy (entry : option (list UserRole)) : bool :=
  match entry with
  | Some _ => true
  | None => false
  end.

Definition canPerformAction (userRole : UserRole) (action : Action)
    (permissions : option RBACRule) : bool :=
  match permissions with
  | None => bool_decide (userRole = Admin)
  | Some rule =>
      if negb (entry_truthy (rule_entry rule action))
      then bool_decide (userRole = Admin)
      else
        let allowedRoles := default [] (rule_entry rule action) in
        includes allowedRoles userRole
  end.

(** [ownerId] is declared [string | undefined]; the handlers pass a
    property of a stored record, which can be any value. *)
Definition checkOwnership (userId : string) (ownerId : JsVal)
    (userRole : UserRole) : bool :=
  if bool_decide (userRole = Admin) then true
  else if negb (truthy ownerId) then true
  else strict_eq_string ownerId userId.

(* ===================================================================== *)
(** * lib/models.ts *)
(* ===================================================================== *)

Inductive FieldType : Type :=
| TString | TNumber | TBoolean | TDate | TEmail | TUrl.

#[export] Instance FieldType_eq_dec : EqDecision FieldType.
Proof. solve_decision. Defined.

Record FieldValidation : Type := {
  v_required : option bool;
  v_min : option float64;
  v_max : option float64;
  v_pattern : option string;
  v_minLength : option float64;
  v_maxLength : option float64;
}.

(** The object literal [{}]. *)
Definition no_validation : FieldValidation :=
  {| v_required := None; v_min := None; v_max := None;
     v_pattern := None; v_minLength := None; v_maxLength := None |}.

Record ModelField : Type := {
  f_name : string;
  f_type : FieldType;
  f_validation : option FieldValidation;
  f_label : option string;
  f_required : option bool;
}.

(** [ModelDefinition | Model]: the timestamps play no part in any
    decision and are left out; [permissions] is optional as in [Model]. *)
Record ModelDefinition : Type := {
  m_name : string;
  m_fields : list ModelField;
  m_ownerField : option string;
  m_permissions : option RBACRule;
}.

(** [field.label || field.name]. *)
Definition display (field : ModelField) : string :=
  if truthy_string (f_label field) then default "" (f_label field)
  else f_name field.

(** [value === null || value === undefined || value === '']. *)
Definition isEmpty (value : JsVal) : bool :=
  match value with
  | JNull | JUndefined => true
  | JStr s => String.eqb s ""
  | _ => false
  end.

(** [validation.required || field.required], as a condition. *)
Definition isRequired (field : ModelField) : bool :=
  let validation := default no_validation (f_validation field) in
  truthy_bool (v_required validation) || truthy_bool (f_required field).

(** The class [\s] on code units below 256. *)
Definition is_space (c : ascii) : bool :=
  let n := nat_of_ascii c in
  ((9 <=? n)%nat && (n <=? 13)%nat) || (n =? 32)%nat || (n =? 160)%nat.

(** The class [[^\s@]]. *)
Definition email_char (c : ascii) : bool :=
  negb (is_space c) && negb (Ascii.eqb c "@").

(** The text before the first [@] and the text after it. *)
Fixpoint split_at_sign (s : list ascii) : option (list ascii * list ascii) :=
  match s with
  | [] => None
  | c :: rest =>
      if Ascii.eqb c "@" then Some ([], rest)
      else match split_at_sign rest with
           | Some (l, d) => Some (c :: l, d)
           | None => None
           end
  end.

(** [/^[^\s@]+@[^\s@]+\.[^\s@]+$/.test(s)]: every character outside the
    one [@] is in the class, the local part is not empty, and the domain
    has a dot that is neither its first nor its last character. *)
Definition emailRegex_test (s : string) : bool :=
  match split_at_sign (list_ascii_of_string s) with
  | None => false
  | Some (l, d) =>
      negb (Nat.eqb (length l) 0) && forallb email_char l && forallb email_char d
      && match d with
         | [] => false
         | _ :: tl => existsb (fun c => Ascii.eqb c ".") (removelast tl)
         end
  end.

(** Two statements in sequence, the first of which may [return]:
    [Normal (Some e)] is [return e], [Normal None] falls through. *)
Definition and_then (first second : Completion (option string))
  : Completion (option string) :=
  match first with
  | Normal None => second
  | _ => first
  end.
Infix ";;;" := and_then (at level 62, right associativity).

Definition fall_through : Completion (option string) := Normal None.
Definition return_ (e : string) : Completion (option string) := Normal (Some e).

Section Validation.
Context (host : Host).

(** The block [if (field.type === 'number') { ... }]. *)
Definition number_checks (value : JsVal) (field : ModelField)
    (validation : FieldValidation) : Completion (option string) :=
  if bool_decide (f_type field = TNumber) then
    num ← ToNumber host value;
    if isNaN num then return_ (display field +:+ " must be a number")
    else
      match v_min validation with
      | Some min =>
          if lt num min
          then return_ (display field +:+ " must be at least " +:+ NumberToString host min)
          else fall_through
      | None => fall_through
      end ;;;
      match v_max validation with
      | Some max =>
          if gt num max
          then return_ (display field +:+ " must be at most " +:+ NumberToString host max)
          else fall_through
      | None => fall_through
      end
  else fall_through.

(** The block for [string], [email] and [url]. *)
Definition string_checks (value : JsVal) (field : ModelField)
    (validation : FieldValidation) : Completion (option string) :=
  if bool_decide (f_type field = TString) || bool_decide (f_type field = TEmail)
     || bool_decide (f_type field = TUrl) then
    str ← ToString host value;
    let len := of_Z (Z.of_nat (String.length str)) in
    match v_minLength validation with
    | Some minLength =>
        if lt len minLength
        then return_ (display field +:+ " must be at least "
                      +:+ NumberToString host minLength +:+ " characters")
        else fall_through
    | None => fall_through
    end ;;;
    match v_maxLength validation with
    | Some maxLength =>
        if gt len maxLength
        then return_ (display field +:+ " must be at most "
                      +:+ NumberToString host maxLength +:+ " characters")
        else fall_through
    | None => fall_through
    end ;;;
    if truthy_string (v_pattern validation) then
      match RegExp_new host (default "" (v_pattern validation)) with
      | None => Throw SyntaxError
      | Some test =>
          if negb (test str) then return_ (display field +:+ " format is invalid")
          else fall_through
      end
    else fall_through
  else fall_through.

Definition email_check (value : JsVal) (field : ModelField)
  : Completion (option string) :=
  if bool_decide (f_type field = TEmail) then
    str ← ToString host value;
    if negb (emailRegex_test str)
    then return_ (display field +:+ " must be a valid email")
    else fall_through
  else fall_through.

(** [try { new URL(String(value)) } catch { return ... }]: whatever is
    thrown inside the block is caught. *)
Definition url_check (value : JsVal) (field : ModelField)
  : Completion (option string) :=
  if bool_decide (f_type field = TUrl) then
    match ToString host value with
    | Normal str =>
        if URL_parses host str then fall_through
        else return_ (display field +:+ " must be a valid URL")
    | Throw _ => return_ (display field +:+ " must be a valid URL")
    end
  else fall_through.

Definition date_check (value : JsVal) (field : ModelField)
  : Completion (option string) :=
  if bool_decide (f_type field = TDate) then
    str ← ToString host value;
    if isNaN (Date_getTime host str)
    then return_ (display field +:+ " must be a valid date")
    else fall_through
  else fall_through.

Definition boolean_check (value : JsVal) (field : ModelField)
  : Completion (option string) :=
  if bool_decide (f_type field = TBoolean) then
    if negb (is_boolean value) && negb (strict_eq_string value "true")
       && negb (strict_eq_string value "false")
    then return_ (display field +:+ " must be a boolean value")
    else fall_through
  else fall_through.

(** [Normal None] is [null] (valid), [Normal (Some e)] the message [e]. *)
Definition validateField (value : JsVal) (field : ModelField)
  : Completion (option string) :=
  let validation := default no_validation (f_validation field) in
  if isRequired field && isEmpty value
  then return_ (display field +:+ " is required")
  else if isEmpty value then Normal None
  else
    number_checks value field validation ;;;
    string_checks value field validation ;;;
    email_check value field ;;;
    url_check value field ;;;
    date_check value field ;;;
    boolean_check value field ;;;
    Normal None.

(** The loop of [validateModelData] over the fields still to visit;
    [errors[field.name] = error] runs when [error] is a truthy string. *)
Fixpoint validate_fields (data : JsObject) (fields : list ModelField)
    (errors : gmap string string) : Completion (gmap string string) :=
  match fields with
  | [] => Normal errors
  | field :: rest =>
      error ← validateField (get data (f_name field)) field;
      validate_fields data rest
        (if truthy_string error
         then assign errors (f_name field) (default "" error)
         else errors)
  end.

Definition validateModelData (data : JsObject) (model : ModelDefinition)
  : Completion (gmap string string) :=
  validate_fields data (m_fields model) ∅.

End Validation.

(** ** The model definitions kept by lib/models.ts *)

(** [throw new Error(message)]. *)
Inductive Exception : Type := Error (message : string).

Fixpoint trim_start (s : list ascii) : list ascii :=
  match s with
  | [] => []
  | c :: rest => if is_space c then trim_start rest else s
  end.

(** [s.trim()]: white space and line terminators are the class [\s]. *)
Definition trim (s : string) : string :=
  string_of_list_ascii
    (rev (trim_start (rev (trim_start (list_ascii_of_string s))))).

(** [saveModel] on the map [models]: the exception, or the map after. *)
Definition saveModel (models : gmap string ModelDefinition)
    (model : ModelDefinition) : Exception + gmap string ModelDefinition :=
  if negb (truthy_string (Some (m_name model)))
     || String.eqb (trim (m_name model)) ""
  then inl (Error "Model name cannot be empty")
  else inr (<[m_name model := model]> models).

(** [deleteModel]: the map after and whether a definition was removed. *)
Definition deleteModel (models : gmap string ModelDefinition) (name : string)
  : gmap string ModelDefinition * bool :=
  (delete name models, bool_decide (is_Some (models !! name))).

(* ===================================================================== *)
(** * lib/dataStore.ts *)
(* ===================================================================== *)

(** A stored record: an object with an [id] property. *)
Abbreviation DataRecord := (gmap string JsVal).

(** A JavaScript [Map] with string keys: entries in insertion order;
    [set] on a present key keeps its place. *)
Module JsMap.
Section Ops.
Context {V : Type}.

Fixpoint get (m : list (string * V)) (k : string) : option V :=
  match m with
  | [] => None
  | (k', v) :: rest => if String.eqb k' k then Some v else get rest k
  end.

Fixpoint set (m : list (string * V)) (k : string) (v : V) : list (string * V) :=
  match m with
  | [] => [(k, v)]
  | (k', v') :: rest =>
      if String.eqb k' k then (k', v) :: rest else (k', v') :: set rest k v
  end.

Definition values (m : list (string * V)) : list V := map snd m.

Definition keys (m : list (string * V)) : list string := map fst m.

Definition has (m : list (string * V)) (k : string) : bool :=
  existsb (fun entry => String.eqb (fst entry) k) m.

(** [m.delete(k)]: the map without the key. *)
Definition delete (m : list (string * V)) (k : string) : list (string * V) :=
  List.filter (fun entry => negb (String.eqb (fst entry) k)) m.
End Ops.
End JsMap.

(** The module-level [dataStore]: model name to the [Map] of its records. *)
Abbreviation DataStore := (gmap string (list (string * DataRecord))).

Definition getModelData (dataStore : DataStore) (modelName : string)
  : list DataRecord :=
  match dataStore !! modelName with
  | None => []
  | Some modelStore => JsMap.values modelStore
  end.

Definition getRecordById (dataStore : DataStore) (modelName id : string)
  : option DataRecord :=
  match dataStore !! modelName with
  | None => None
  | Some modelStore => JsMap.get modelStore id
  end.

(** [updateRecord] mutates the store: the new store and the result. *)
Definition updateRecord (dataStore : DataStore) (modelName id : string)
    (data : JsObject) : DataStore * option DataRecord :=
  match dataStore !! modelName with
  | None => (dataStore, None)
  | Some modelStore =>
      match JsMap.get modelStore id with
      | None => (dataStore, None)
      | Some existing =>
          let updated := <["id" := JStr id]> (spread existing data) in
          (<[modelName := JsMap.set modelStore id updated]> dataStore, Some updated)
      end
  end.

(** [createRecord]: [id] is the identifier the clock and the random
    generator of the host yield
    ([Date.now().toString() + Math.random().toString(36).substring(2, 9)]);
    the record is [{ id, ...data }], so an [id] of the payload wins over it. *)
Definition createRecord (dataStore : DataStore) (modelName id : string)
    (data : JsObject) : DataStore * DataRecord :=
  let modelStore := default [] (dataStore !! modelName) in
  let record := spread {[ "id" := JStr id ]} data in
  (<[modelName := JsMap.set modelStore id record]> dataStore, record).

(** [deleteRecord]: the new store and whether a record was removed. *)
Definition deleteRecord (dataStore : DataStore) (modelName id : string)
  : DataStore * bool :=
  match dataStore !! modelName with
  | None => (dataStore, false)
  | Some modelStore =>
      (<[modelName := JsMap.delete modelStore id]> dataStore,
       JsMap.has modelStore id)
  end.

(* ===================================================================== *)
(** * The data route handlers *)
(* ===================================================================== *)

(** What the handlers read and write: the model definitions
    ([models] of lib/models.ts, read through [getModel]) and the records. *)
Record Server : Type := {
  models : gmap string ModelDefinition;
  dataStore : DataStore;
}.

Definition getModel (srv : Server) (name : string) : option ModelDefinition :=
  models srv !! name.

(** The JSON body of a response. *)
Inductive Body : Type :=
| ErrorBody (error : string)
| ValidationBody (error : string) (errors : gmap string string)
| DataBody (data : list DataRecord)
| RecordBody (record : option DataRecord).

Record Response : Type := {
  status : nat;
  body : Body;
}.

Definition json (b : Body) (st : nat) : Response := {| status := st; body := b |}.

(** app/api/data/[modelName]/route.ts *)
Module Collection.

(** [user] is what [getCurrentUser()] resolved to. *)
Definition GET (srv : Server) (user : option User) (modelName : string)
  : Response :=
  match user with
  | None => json (ErrorBody "Not authenticated") 401
  | Some user =>
      match getModel srv modelName with
      | None => json (ErrorBody "Model not found") 404
      | Some model =>
          if negb (canPerformAction (user_role user) Read (m_permissions model))
          then json (ErrorBody "Permission denied") 403
          else
            let data := getModelData (dataStore srv) modelName in
            let filteredData :=
              if truthy_string (m_ownerField model)
                 && negb (bool_decide (user_role user = Admin))
              then
                List.filter (fun record =>
                  let ownerId := get record (default "" (m_ownerField model)) in
                  negb (truthy ownerId) || strict_eq_string ownerId (user_id user))
                  data
              else data in
            json (DataBody filteredData) 200
      end
  end.

(** [data] is the request body, a JSON object, and [id] the identifier
    [createRecord] draws. *)
Definition POST (host : Host) (srv : Server) (user : option User)
    (modelName : string) (data : JsObject) (id : string) : Server * Response :=
  match user with
  | None => (srv, json (ErrorBody "Not authenticated") 401)
  | Some user =>
      match getModel srv modelName with
      | None => (srv, json (ErrorBody "Model not found") 404)
      | Some model =>
          if negb (canPerformAction (user_role user) Create (m_permissions model))
          then (srv, json (ErrorBody "Permission denied") 403)
          else
            match validateModelData host data model with
            | Throw _ => (srv, json (ErrorBody "Internal server error") 500)
            | Normal errors =>
                if negb (Nat.eqb (size errors) 0)
                then (srv, json (ValidationBody "Validation failed" errors) 400)
                else
                  let data :=
                    if truthy_string (m_ownerField model)
                    then assign data (default "" (m_ownerField model))
                           (JStr (user_id user))
                    else data in
                  let '(store, record) :=
                    createRecord (dataStore srv) modelName id data in
                  ({| models := models srv; dataStore := store |},
                   json (RecordBody (Some record)) 201)
            end
      end
  end.

End Collection.

(** app/api/data/[modelName]/[id]/route.ts *)
Module Item.

(** The handler up to [await request.json()]: a response when it
    returns early, else the model and the stored record. *)
Definition PUT_guard (srv : Server) (user : option User) (modelName id : string)
  : Response + (User * ModelDefinition * DataRecord) :=
  match user with
  | None => inl (json (ErrorBody "Not authenticated") 401)
  | Some user =>
      match getModel srv modelName with
      | None => inl (json (ErrorBody "Model not found") 404)
      | Some model =>
          if negb (canPerformAction (user_role user) Update (m_permissions model))
          then inl (json (ErrorBody "Permission denied") 403)
          else
            match getRecordById (dataStore srv) modelName id with
            | None => inl (json (ErrorBody "Record not found") 404)
            | Some existingRecord =>
                if truthy_string (m_ownerField model)
                   && negb (checkOwnership (user_id user)
                              (get existingRecord (default "" (m_ownerField model)))
                              (user_role user))
                then inl (json (ErrorBody "Permission denied") 403)
                else inr (user, model, existingRecord)
            end
      end
  end.

(** The statement under the comment "Don't allow changing owner". *)
Definition strip_owner (model : ModelDefinition) (data : JsObject) : JsObject :=
  if truthy_string (m_ownerField model)
     && truthy (get data (default "" (m_ownerField model)))
  then delete (default "" (m_ownerField model)) data
  else data.

(** [data] is the request body, a JSON object.  An exception of the
    [try] block ends in the [catch]: status 500, store untouched. *)
Definition PUT (host : Host) (srv : Server) (user : option User)
    (modelName id : string) (data : JsObject) : Server * Response :=
  match PUT_guard srv user modelName id with
  | inl response => (srv, response)
  | inr (_, model, existingRecord) =>
      match validateModelData host (spread existingRecord data) model with
      | Throw _ => (srv, json (ErrorBody "Internal server error") 500)
      | Normal errors =>
          if negb (Nat.eqb (size errors) 0)
          then (srv, json (ValidationBody "Validation failed" errors) 400)
          else
            let data := strip_owner model data in
            let '(store, record) := updateRecord (dataStore srv) modelName id data in
            ({| models := models srv; dataStore := store |},
             json (RecordBody record) 200)
      end
  end.

Definition GET (srv : Server) (user : option User) (modelName id : string)
  : Response :=
  match user with
  | None => json (ErrorBody "Not authenticated") 401
  | Some user =>
      match getModel srv modelName with
      | None => json (ErrorBody "Model not found") 404
      | Some model =>
          if negb (canPerformAction (user_role user) Read (m_permissions model))
          then json (ErrorBody "Permission denied") 403
          else
            match getRecordById (dataStore srv) modelName id with
            | None => json (ErrorBody "Record not found") 404
            | Some record =>
                if truthy_string (m_ownerField model)
                   && negb (checkOwnership (user_id user)
                              (get record (default "" (m_ownerField model)))
                              (user_role user))
                then json (ErrorBody "Permission denied") 403
                else json (RecordBody (Some record)) 200
            end
      end
  end.

(** The body of an answer of [DELETE]: an error or [{ success: true }]. *)
Inductive DeleteBody : Type :=
| DeleteError (error : string)
| DeleteSuccess.

Definition DELETE (srv : Server) (user : option User) (modelName id : string)
  : Server * (nat * DeleteBody) :=
  match user with
  | None => (srv, (401, DeleteError "Not authenticated"))
  | Some user =>
      match getModel srv modelName with
      | None => (srv, (404, DeleteError "Model not found"))
      | Some model =>
          if negb (canPerformAction (user_role user) Delete (m_permissions model))
          then (srv, (403, DeleteError "Permission denied"))
          else
            match getRecordById (dataStore srv) modelName id with
            | None => (srv, (404, DeleteError "Record not found"))
            | Some existingRecord =>
                if truthy_string (m_ownerField model)
                   && negb (checkOwnership (user_id user)
                              (get existingRecord (default "" (m_ownerField model)))
                              (user_role user))
                then (srv, (403, DeleteError "Permission denied"))
                else
                  let '(store, deleted) :=
                    deleteRecord (dataStore srv) modelName id in
                  let srv := {| models := models srv; dataStore := store |} in
                  if negb deleted
                  then (srv, (500, DeleteError "Failed to delete record"))
                  else (srv, (200, DeleteSuccess))
            end
      end
  end.

End Item.

(** app/api/models/route.ts *)
Module Models.

(** A request body that is a JSON object.  [md_name] is whatever the
    object gives for [name], of any type; [md_fields] is [None] when
    [fields] is falsy or is not an array. *)
Record ModelData : Type := {
  md_name : JsVal;
  md_fields : option (list ModelField);
  md_ownerField : option string;
  md_permissions : option RBACRule;
}.

(** What [request.json()] gives: it throws on a body that is not JSON;
    a boolean, a number, a string and an array have no property [name]. *)
Inductive RequestBody : Type :=
| NotJSON
| JSON_null
| JSON_scalar_or_array
| JSON_object (modelData : ModelData).

(** The permissions of a model posted without any. *)
Definition default_permissions : RBACRule :=
  {| rule_create := Some [Admin];
     rule_read := Some [Admin; Manager; Viewer];
     rule_update := Some [Admin];
     rule_delete := Some [Admin] |}.

Inductive ModelBody : Type :=
| ModelError (error : string)
| ModelCreated (model : ModelDefinition).

(** Reading [modelData.name] off [null] throws, and so does
    [model.name.trim()] in [saveModel] when the name is not a string:
    either ends in the [catch]. *)
Definition POST (srv : Server) (user : option User) (body : RequestBody)
  : Server * (nat * ModelBody) :=
  match user with
  | None => (srv, (401, ModelError "Not authenticated"))
  | Some user =>
      if negb (bool_decide (user_role user = Admin))
      then (srv, (403, ModelError "Only admins can create models"))
      else
        match body with
        | NotJSON | JSON_null => (srv, (500, ModelError "Internal server error"))
        | JSON_scalar_or_array => (srv, (400, ModelError "Invalid model data"))
        | JSON_object modelData =>
            if negb (truthy (md_name modelData))
               || negb (bool_decide (is_Some (md_fields modelData)))
            then (srv, (400, ModelError "Invalid model data"))
            else
              match md_name modelData with
              | JStr name =>
                  let model :=
                    {| m_name := name;
                       m_fields := default [] (md_fields modelData);
                       m_ownerField := md_ownerField modelData;
                       m_permissions :=
                         Some (default default_permissions
                                 (md_permissions modelData)) |} in
                  match saveModel (models srv) model with
                  | inl _ => (srv, (500, ModelError "Internal server error"))
                  | inr saved =>
                      ({| models := saved; dataStore := dataStore srv |},
                       (200, ModelCreated model))
                  end
              | _ => (srv, (500, ModelError "Internal server error"))
              end
        end
  end.

End Models.

(* ===================================================================== *)
(** * A small host *)
(* ===================================================================== *)

(** A host that answers as ECMAScript does on a small fragment: strings
    of decimal digits and ["Infinity"], integral numbers, patterns made
    of letters and digits, one URL and one date.  Outside the fragment
    its answers are placeholders.  It serves to run the definitions on
    concrete inputs; every theorem below is stated for an arbitrary host. *)
Module SmallHost.

Definition digit (c : ascii) : option Z :=
  let n := nat_of_ascii c in
  if (48 <=? n)%nat && (n <=? 57)%nat then Some (Z.of_nat (n - 48)) else None.

Fixpoint digits (s : string) (acc : Z) : option Z :=
  match s with
  | EmptyString => Some acc
  | String c rest =>
      match digit c with
      | Some d => digits rest (10 * acc + d)%Z
      | None => None
      end
  end.

Definition string_to_number (s : string) : float64 :=
  if String.eqb s "" then pos_zero
  else if String.eqb s "Infinity" then Infinity
  else match digits s 0 with
       | Some z => of_Z z
       | None => NaN
       end.

Definition number_to_string (n : float64) : string :=
  match n with
  | S754_zero _ => "0"
  | S754_nan => "NaN"
  | S754_infinity s => if s then "-Infinity" else "Infinity"
  | S754_finite s m e =>
      let sign := if s then "-" else "" in
      if (0 <=? e)%Z then sign +:+ pretty (Z.pos m * 2 ^ e)%Z
      else if (Z.pos m mod 2 ^ (- e) =? 0)%Z
           then sign +:+ pretty (Z.pos m / 2 ^ (- e))%Z
           else ""
  end.

Definition alphanumeric (c : ascii) : bool :=
  let n := nat_of_ascii c in
  ((48 <=? n)%nat && (n <=? 57)%nat) || ((65 <=? n)%nat && (n <=? 90)%nat)
  || ((97 <=? n)%nat && (n <=? 122)%nat).

Definition contains (p s : string) : bool :=
  match index 0 p s with
  | Some _ => true
  | None => false
  end.

Definition regexp_new (p : string) : option (string -> bool) :=
  if negb (String.eqb p "") && forallb alphanumeric (list_ascii_of_string p)
  then Some (contains p)
  else None.

(** The text V8 gives for a built-in function: its name is the property
    name, but for [constructor], which holds [Object]. *)
Definition function_to_string (k : string) : string :=
  "function " +:+ (if String.eqb k "constructor" then "Object" else k)
  +:+ "() { [native code] }".

Definition host : Host := {|
  StringToNumber := string_to_number;
  NumberToString := number_to_string;
  FunctionToString := function_to_string;
  RegExp_new := regexp_new;
  URL_parses := fun s => String.eqb s "https://example.com";
  Date_getTime := fun s =>
    if String.eqb s "2025-12-31" then of_Z 1767139200000 else NaN;
|}.

End SmallHost.

(* ===================================================================== *)
(** * The specification's own formulations *)
(* ===================================================================== *)

(** The list filter in the words of the specification (section 4.5):
    "for a non-Admin requester on a model with an ownerField, retain a
    record iff its ownerField value is absent OR equals the requester's
    id, with Admin retaining all records unconditionally". *)
Definition spec_retains (user : User) (ownerField : string) (record : DataRecord)
  : bool :=
  bool_decide (user_role user = Admin)
  || match record !! ownerField with
     | None => true
     | Some ownerId => strict_eq_string ownerId (user_id user)
     end.

(** Whether a number is below a declared minimum, above a declared maximum. *)
Definition below_min (validation : FieldValidation) (num : float64) : bool :=
  match v_min validation with
  | Some min => lt num min
  | None => false
  end.

Definition above_max (validation : FieldValidation) (num : float64) : bool :=
  match v_max validation with
  | Some max => gt num max
  | None => false
  end.



(** The field validator in the words of the specification (section 4.4):
    the outcome for an empty value is decided by [required] alone; any
    other value is coerced as its type asks, the checks of the type are
    listed in the order of the specification, each on its own, and the
    answer is that of the first check that does not pass. *)
Definition first_failure (checks : list (Completion (option string)))
  : Completion (option string) :=
  foldr and_then (Normal None) checks.

Section SpecChecks.
Context (host : Host) (field : ModelField).

Let validation : FieldValidation := default no_validation (f_validation field).

Definition check (failed : bool) (message : string) : Completion (option string) :=
  if failed then Normal (Some (display field +:+ message)) else Normal None.

Definition nan_check (num : float64) :=
  check (isNaN num) " must be a number".

Definition min_check (num : float64) :=
  match v_min validation with
  | Some min => check (lt num min) (" must be at least " +:+ NumberToString host min)
  | None => Normal None
  end.

Definition max_check (num : float64) :=
  match v_max validation with
  | Some max => check (gt num max) (" must be at most " +:+ NumberToString host max)
  | None => Normal None
  end.

Definition minLength_check (str : string) :=
  match v_minLength validation with
  | Some n =>
      check (lt (of_Z (Z.of_nat (String.length str))) n)
        (" must be at least " +:+ NumberToString host n +:+ " characters")
  | None => Normal None
  end.

Definition maxLength_check (str : string) :=
  match v_maxLength validation with
  | Some n =>
      check (gt (of_Z (Z.of_nat (String.length str))) n)
        (" must be at most " +:+ NumberToString host n +:+ " characters")
  | None => Normal None
  end.

Definition pattern_check (str : string) :=
  match v_pattern validation with
  | Some pattern =>
      if String.eqb pattern "" then Normal None
      else match RegExp_new host pattern with
           | Some test => check (negb (test str)) " format is invalid"
           | None => Throw SyntaxError
           end
  | None => Normal None
  end.

Definition email_format (str : string) :=
  check (negb (emailRegex_test str)) " must be a valid email".

Definition url_format (str : string) :=
  check (negb (URL_parses host str)) " must be a valid URL".

Definition date_format (str : string) :=
  check (isNaN (Date_getTime host str)) " must be a valid date".

Definition boolean_format (value : JsVal) :=
  check (negb (is_boolean value || strict_eq_string value "true"
               || strict_eq_string value "false"))
    " must be a boolean value".

Definition spec_validateField (value : JsVal) : Completion (option string) :=
  if isEmpty value then check (isRequired field) " is required"
  else
    match f_type field with
    | TNumber =>
        num ← ToNumber host value;
        first_failure [nan_check num; min_check num; max_check num]
    | TString =>
        str ← ToString host value;
        first_failure [minLength_check str; maxLength_check str; pattern_check str]
    | TEmail =>
        str ← ToString host value;
        first_failure [minLength_check str; maxLength_check str; pattern_check str;
                       email_format str]
    | TUrl =>
        str ← ToString host value;
        first_failure [minLength_check str; maxLength_check str; pattern_check str;
                       url_format str]
    | TDate =>
        str ← ToString host value;
        first_failure [date_format str]
    | TBoolean => first_failure [boolean_format value]
    end.

End SpecChecks.

(** An answer that, when it is a message, is a non-empty string: [if
    (error)] in [validateModelData] is then taken exactly when there is a
    message. *)
Definition says_something (c : Completion (option string)) : Prop :=
  forall e, c = Normal (Some e) -> truthy_string (Some e) = true.

(** A string field named [code] whose only constraint is a pattern. *)
Definition pattern_field (pattern : string) : ModelField :=
  {| f_name := "code"; f_type := TString;
     f_validation :=
       Some {| v_required := None; v_min := None; v_max := None;
               v_pattern := Some pattern; v_minLength := None;
               v_maxLength := None |};
     f_label := None; f_required := None |}.

(** A number field named [price], with optional bounds. *)
Definition bounded_number (min max : option float64) : ModelField :=
  {| f_name := "price"; f_type := TNumber;
     f_validation :=
       Some {| v_required := None; v_min := min; v_max := max;
               v_pattern := None; v_minLength := None; v_maxLength := None |};
     f_label := None; f_required := None |}.

(* ===================================================================== *)
(** * Notions used to state the properties of the stores and handlers *)
(* ===================================================================== *)

(** Every [Map] of the record store holds an identifier once: what a
    JavaScript [Map] guarantees and the lists standing for it must keep. *)
Definition unique_ids (dataStore : DataStore) : Prop :=
  forall modelName modelStore,
    dataStore !! modelName = Some modelStore -> NoDup (JsMap.keys modelStore).

(** An answer that, when it is a message, satisfies [Q]. *)
Definition answers_with (Q : string -> Prop) (c : Completion (option string))
  : Prop :=
  forall e, c = Normal (Some e) -> Q e.

(** The messages that start with the label of the field, or with its name
    when it has no label, followed by a space. *)
Definition names_field (field : ModelField) (e : string) : Prop :=
  exists rest, e = display field +:+ String " " rest.

(** The constraints that the field validator reads for a type: bounds on
    numbers, lengths and the pattern on the three kinds of text, nothing
    but [required] on dates and booleans. *)
Definition constraints_read (type : FieldType) (validation : FieldValidation)
  : FieldValidation :=
  match type with
  | TNumber =>
      {| v_required := v_required validation;
         v_min := v_min validation; v_max := v_max validation;
         v_pattern := None; v_minLength := None; v_maxLength := None |}
  | TString | TEmail | TUrl =>
      {| v_required := v_required validation;
         v_min := None; v_max := None;
         v_pattern := v_pattern validation;
         v_minLength := v_minLength validation;
         v_maxLength := v_maxLength validation |}
  | TDate | TBoolean =>
      {| v_required := v_required validation;
         v_min := None; v_max := None;
         v_pattern := None; v_minLength := None; v_maxLength := None |}
  end.

(** A field with its validation block replaced. *)
Definition with_validation (field : ModelField) (validation : FieldValidation)
  : ModelField :=
  {| f_name := f_name field; f_type := f_type field;
     f_validation := Some validation;
     f_label := f_label field; f_required := f_required field |}.

(** The values that are not arrays or objects. *)
Definition primitive (value : JsVal) : bool :=
  match value with
  | JArr _ | JObj _ | JProto _ => false
  | _ => true
  end.

(** The pattern of a field, when it has a non-empty one, is accepted by
    [new RegExp]. *)
Definition pattern_compiles (host : Host) (field : ModelField) : Prop :=
  forall pattern,
    v_pattern (default no_validation (f_validation field)) = Some pattern ->
    pattern <> "" ->
    is_Some (RegExp_new host pattern).

(** The records of a [200] answer to a collection read. *)
Definition listed (response : Response) : list DataRecord :=
  match body response with
  | DataBody data => data
  | _ => []
  end.

(* ===================================================================== *)
(** * The scenario of the specification (section 8) *)
(* ===================================================================== *)

Module Scenario.

Definition field (name : string) (type : FieldType) (required : bool)
  : ModelField :=
  {| f_name := name; f_type := type; f_validation := None;
     f_label := None; f_required := Some required |}.

Definition permissions : RBACRule :=
  {| rule_create := Some [Admin; Manager];
     rule_read := Some [Admin; Manager; Viewer];
     rule_update := Some [Admin; Manager];
     rule_delete := Some [Admin] |}.

Definition Product : ModelDefinition :=
  {| m_name := "Product";
     m_fields := [field "name" TString true; field "price" TNumber true];
     m_ownerField := Some "ownerId";
     m_permissions := Some permissions |}.

Definition a1 : User := {| user_id := "a1"; user_role := Admin |}.
Definition m1 : User := {| user_id := "m1"; user_role := Manager |}.
Definition m2 : User := {| user_id := "m2"; user_role := Manager |}.
Definition v1 : User := {| user_id := "v1"; user_role := Viewer |}.

Definition record (id name : string) (price : Z) (ownerId : JsVal) : DataRecord :=
  {[ "id" := JStr id; "name" := JStr name; "price" := JNum (of_Z price);
     "ownerId" := ownerId ]}.

(** One product, created by the manager [m1]. *)
Definition widget : DataRecord := record "r1" "Widget" 100 (JStr "m1").

Definition server (records : list (string * DataRecord)) : Server :=
  {| models := {[ "Product" := Product ]};
     dataStore := {[ "Product" := records ]} |}.

(** A rule that lists nobody for [read]. *)
Definition nobody_reads : RBACRule :=
  {| rule_create := None; rule_read := Some []; rule_update := None;
     rule_delete := None |}.

(** The rule [{create: [Manager]}]. *)
Definition managers_create : RBACRule :=
  {| rule_create := Some [Manager]; rule_read := None; rule_update := None;
     rule_delete := None |}.

(** The rule [{delete: [Admin, Manager]}]. *)
Definition staff_delete : RBACRule :=
  {| rule_create := None; rule_read := None; rule_update := None;
     rule_delete := Some [Admin; Manager] |}.




End Scenario.

(* ===================================================================== *)
(** * Properties of the permission and ownership resolvers *)
(* ===================================================================== *)

Section Resolvers.

Lemma includes_elem_of (allowedRoles : list UserRole) (role : UserRole) :
  includes allowedRoles role = true <-> role ∈ allowedRoles.
Proof.
  unfold includes. rewrite existsb_exists. split.
  - intros (r & Hin & Heq). apply bool_decide_eq_true in Heq. subst r.
    by apply list_elem_of_In.
  - intros Hin. exists role. split; [by apply list_elem_of_In|].
    by apply bool_decide_eq_true.
Qed.

(** Without a rule, or without an entry for the action, only Admin passes. *)
Lemma canPerformAction_default (role : UserRole) (action : Action)
    (permissions : option RBACRule) :
  (permissions ≫= fun rule => rule_entry rule action) = None ->
  canPerformAction role action permissions = true <-> role = Admin.
Proof.
  intros Hnone. unfold canPerformAction.
  destruct permissions as [rule|]; simpl in *.
  - rewrite Hnone. simpl. apply bool_decide_eq_true.
  - apply bool_decide_eq_true.
Qed.

(** With an entry for the action the answer is membership in it. *)
Lemma canPerformAction_listed (role : UserRole) (action : Action)
    (rule : RBACRule) (allowedRoles : list UserRole) :
  rule_entry rule action = Some allowedRoles ->
  canPerformAction role action (Some rule) = includes allowedRoles role.
Proof. intros Hentry. unfold canPerformAction. by rewrite Hentry. Qed.

End Resolvers.

(** C1 (the code departs from the claim on an empty list).  An entry that
    is an empty list is truthy, so the secure default is skipped and the
    answer is membership in the empty list: Admin is refused [read] by
    [{read: []}], where the claim and the function's own remarks ("Always
    returns true for Admin role") have Admin allowed; for the other two
    roles the answer is the refusal the claim states. *)
Theorem canPerformAction_empty_list_refuses_Admin :
  canPerformAction Admin Read (Some Scenario.nobody_reads) = false
  /\ canPerformAction Manager Read (Some Scenario.nobody_reads) = false
  /\ canPerformAction Viewer Read (Some Scenario.nobody_reads) = false
  /\ canPerformAction Admin Create (Some Scenario.nobody_reads) = true
  /\ canPerformAction Admin Read None = true.
Proof. repeat split; reflexivity. Qed.

(** C2 (the code departs from the claim).  An empty-string owner is falsy,
    so the public-record branch answers before the identifiers are
    compared: every requester passes, where the claim (and the test
    "should handle empty string ownerId") has only the requester with the
    empty identifier pass. *)
Theorem checkOwnership_empty_owner_is_public (userId : string) (role : UserRole) :
  checkOwnership userId (JStr "") role = true.
Proof. by destruct role. Qed.

(** C4.  When the entry for an action is a non-empty list, the answer is
    exactly membership in the list, for every role and whether or not the
    list names Admin: neither Admin nor the role order is consulted.  So
    Admin is refused the action by every such list that does not name
    Admin, and a role is refused by a list that names only roles below or
    above it. *)
Theorem canPerformAction_explicit_list_is_membership
    (action : Action) (rule : RBACRule) (allowedRoles : list UserRole) :
  rule_entry rule action = Some allowedRoles ->
  allowedRoles <> [] ->
  (forall role,
      canPerformAction role action (Some rule) = true <-> role ∈ allowedRoles)
  /\ (forall role,
        canPerformAction role action (Some rule) = false <-> role ∉ allowedRoles)
  /\ (Admin ∉ allowedRoles -> canPerformAction Admin action (Some rule) = false).
Proof.
  intros Hentry _.
  assert (Hmember : forall role,
            canPerformAction role action (Some rule) = true <-> role ∈ allowedRoles).
  { intros role. rewrite (canPerformAction_listed _ _ _ _ Hentry).
    apply includes_elem_of. }
  assert (Hrefused : forall role,
            canPerformAction role action (Some rule) = false <-> role ∉ allowedRoles).
  { intros role. rewrite <- Hmember. symmetry. apply not_true_iff_false. }
  split; [done|]. split; [done|]. intros Hadmin. by apply Hrefused.
Qed.

(** The rule [{create: [Manager]}] refuses Admin; the rule
    [{delete: [Admin, Manager]}] allows Admin as a member and refuses
    Viewer. *)
Lemma canPerformAction_explicit_list_witness :
  (canPerformAction Admin Create (Some Scenario.managers_create) = false
   /\ forall role,
        canPerformAction role Create (Some Scenario.managers_create) = true
        <-> role ∈ [Manager])
  /\ (forall role,
        canPerformAction role Delete (Some Scenario.staff_delete) = true
        <-> role ∈ [Admin; Manager]).
Proof.
  split.
  - destruct (canPerformAction_explicit_list_is_membership Create
                Scenario.managers_create [Manager] eq_refl)
      as (Hmember & _ & Hadmin); [discriminate|].
    split; [|exact Hmember].
    apply Hadmin. intros Hin. apply list_elem_of_In in Hin. simpl in Hin.
    destruct Hin as [Heq|[]]. discriminate Heq.
  - destruct (canPerformAction_explicit_list_is_membership Delete
                Scenario.staff_delete [Admin; Manager] eq_refl)
      as (Hmember & _); [discriminate|].
    exact Hmember.
Defined.

(** C5.  Admin passes the ownership check for every requester id and every
    owner value (a missing one and the empty string included), and a
    record without an owner value passes it for every requester and
    role. *)
Theorem checkOwnership_Admin_and_public :
  (forall (userId : string) (ownerId : JsVal),
      checkOwnership userId ownerId Admin = true)
  /\ (forall (userId : string) (role : UserRole),
        checkOwnership userId JUndefined role = true).
Proof.
  split.
  - intros userId ownerId. reflexivity.
  - intros userId role. by destruct role.
Qed.

(* ===================================================================== *)
(** * Properties of the collection and item handlers *)
(* ===================================================================== *)

Section Handlers.

Lemma filter_all (A : Type) (f : A -> bool) (l : list A) :
  (forall a, f a = true) -> List.filter f l = l.
Proof.
  intros Hall. induction l as [|a l IH]; simpl; [done|].
  by rewrite Hall, IH.
Qed.

(** The predicate of the list filter is the ownership check of a
    requester who is not Admin. *)
Lemma checkOwnership_unfold (userId : string) (ownerId : JsVal) (role : UserRole) :
  checkOwnership userId ownerId role
  = bool_decide (role = Admin)
    || negb (truthy ownerId) || strict_eq_string ownerId userId.
Proof.
  unfold checkOwnership. destruct (bool_decide (role = Admin)); [done|].
  simpl. by destruct (truthy ownerId).
Qed.

Lemma strict_eq_string_true (v : JsVal) (s : string) :
  strict_eq_string v s = true <-> v = JStr s.
Proof.
  destruct v; simpl; try (split; [discriminate|congruence]).
  rewrite String.eqb_eq. split; congruence.
Qed.

End Handlers.

(** The list filter is the ownership resolver, record by record.  When
    the collection is read on a model whose owner field is a non-empty
    name, the records returned are exactly those for which
    [checkOwnership] holds of the requester's id, the record's owner-field
    value and the requester's role, in their stored order; an Admin gets
    every record; and for a requester who is not Admin a record passes
    exactly when the test [!ownerId] holds of its owner value or that
    value is the requester's id. *)
Theorem GET_filter_is_checkOwnership
    (srv : Server) (user : User) (modelName : string)
    (model : ModelDefinition) (ownerField : string) :
  getModel srv modelName = Some model ->
  m_ownerField model = Some ownerField ->
  ownerField <> "" ->
  canPerformAction (user_role user) Read (m_permissions model) = true ->
  Collection.GET srv (Some user) modelName
  = json (DataBody
            (List.filter
               (fun record =>
                  checkOwnership (user_id user) (get record ownerField) (user_role user))
               (getModelData (dataStore srv) modelName))) 200
  /\ (user_role user = Admin ->
      Collection.GET srv (Some user) modelName
      = json (DataBody (getModelData (dataStore srv) modelName)) 200)
  /\ (user_role user <> Admin ->
      forall record : DataRecord,
        checkOwnership (user_id user) (get record ownerField) (user_role user) = true
        <-> truthy (get record ownerField) = false
            \/ get record ownerField = JStr (user_id user)).
Proof.
  intros Hmodel Hfield Hname Hread.
  assert (Hget : Collection.GET srv (Some user) modelName
                 = json (DataBody
                     (if negb (bool_decide (user_role user = Admin))
                      then List.filter
                             (fun record =>
                                negb (truthy (get record ownerField))
                                || strict_eq_string (get record ownerField) (user_id user))
                             (getModelData (dataStore srv) modelName)
                      else getModelData (dataStore srv) modelName)) 200).
  { unfold Collection.GET. rewrite Hmodel, Hread, Hfield. simpl.
    apply String.eqb_neq in Hname. by rewrite Hname. }
  split; [|split].
  - rewrite Hget. f_equal. f_equal.
    destruct (decide (user_role user = Admin)) as [Hadmin|Hother].
    + rewrite (bool_decide_eq_true_2 _ Hadmin). simpl.
      symmetry. apply filter_all. intros record. by rewrite Hadmin.
    + rewrite (bool_decide_eq_false_2 _ Hother). simpl.
      apply filter_ext. intros record. rewrite checkOwnership_unfold.
      by rewrite (bool_decide_eq_false_2 _ Hother).
  - intros Hadmin. rewrite Hget. by rewrite (bool_decide_eq_true_2 _ Hadmin).
  - intros Hother record. rewrite checkOwnership_unfold.
    rewrite (bool_decide_eq_false_2 _ Hother). simpl.
    rewrite orb_true_iff, negb_true_iff. by rewrite strict_eq_string_true.
Qed.

Lemma GET_filter_is_checkOwnership_witness :
  Collection.GET (Scenario.server [("r1", Scenario.widget)]) (Some Scenario.v1) "Product"
  = json (DataBody
            (List.filter
               (fun record =>
                  checkOwnership "v1" (get record "ownerId") Viewer)
               (getModelData (dataStore (Scenario.server [("r1", Scenario.widget)]))
                  "Product"))) 200.
Proof.
  apply (GET_filter_is_checkOwnership
           (Scenario.server [("r1", Scenario.widget)]) Scenario.v1 "Product"
           Scenario.Product "ownerId").
  - reflexivity.
  - reflexivity.
  - discriminate.
  - reflexivity.
Defined.

(** C6 (the code departs from the claim).  The list filter tests the
    owner value with [!ownerId], as [checkOwnership] does, so an owner
    value that is the empty string counts as missing: a stored record
    whose owner value is the empty string is returned to the manager
    [m1], although that value is neither absent nor [m1]'s id, and
    although the repository's test of [checkOwnership] ("should handle
    empty string ownerId") has such a record refused. *)
Lemma GET_retains_empty_string_owner :
  Collection.GET
    (Scenario.server [("r2", Scenario.record "r2" "Gadget" 5 (JStr ""))])
    (Some Scenario.m1) "Product"
  = json (DataBody [Scenario.record "r2" "Gadget" 5 (JStr "")]) 200
  /\ Scenario.record "r2" "Gadget" 5 (JStr "") !! "ownerId" = Some (JStr "")
  /\ spec_retains Scenario.m1 "ownerId" (Scenario.record "r2" "Gadget" 5 (JStr ""))
     = false.
Proof. repeat split; vm_compute; reflexivity. Qed.

(** C3 (the code departs from the claim).  The owner value is dropped from
    the payload only when it is truthy, so a payload that sets the owner
    field to the empty string (or [null]) goes through to [updateRecord]:
    the manager [m1] updates the record they own, the answer is 200, and
    the stored owner value has changed from ["m1"] to the payload's. *)
Theorem PUT_falsy_owner_overwrites (host : Host) :
  let srv := Scenario.server [("r1", Scenario.widget)] in
  getRecordById (dataStore srv) "Product" "r1" ≫= (.!! "ownerId")
  = Some (JStr "m1")
  /\ status (snd (Item.PUT host srv (Some Scenario.m1) "Product" "r1"
                    {[ "ownerId" := JStr "" ]})) = 200
  /\ getRecordById
       (dataStore (fst (Item.PUT host srv (Some Scenario.m1) "Product" "r1"
                          {[ "ownerId" := JStr "" ]})))
       "Product" "r1" ≫= (.!! "ownerId")
     = Some (JStr "")
  /\ getRecordById
       (dataStore (fst (Item.PUT host srv (Some Scenario.m1) "Product" "r1"
                          {[ "ownerId" := JNull ]})))
       "Product" "r1" ≫= (.!! "ownerId")
     = Some JNull.
Proof. repeat split; vm_compute; reflexivity. Qed.

(* ===================================================================== *)
(** * Properties of the field validator *)
(* ===================================================================== *)

Section FieldValidator.
Context (host : Host).

Lemma and_then_pass (c : Completion (option string)) : (c ;;; Normal None) = c.
Proof. by destruct c as [[e|]|]. Qed.

Lemma append_cancel (s t u : string) : s +:+ t = s +:+ u -> t = u.
Proof.
  induction s as [|c s IH]; simpl; [done|].
  intros Heq. injection Heq as Heq. by apply IH.
Qed.

Lemma lt_irrefl (n : float64) : lt n n = false.
Proof.
  unfold lt, SFltb.
  destruct n as [s|s| |s m e]; simpl.
  - done.
  - by destruct s.
  - done.
  - destruct s; by rewrite Z.compare_refl, Pos.compare_cont_refl.
Qed.

Lemma gt_irrefl (n : float64) : gt n n = false.
Proof. apply lt_irrefl. Qed.

(** A value that is not empty reaches the type-specific blocks. *)
Lemma validateField_nonempty (value : JsVal) (field : ModelField) :
  isEmpty value = false ->
  validateField host value field
  = (number_checks host value field (default no_validation (f_validation field)) ;;;
     string_checks host value field (default no_validation (f_validation field)) ;;;
     email_check host value field ;;;
     url_check host value field ;;;
     date_check host value field ;;;
     boolean_check value field ;;;
     Normal None).
Proof. intros Hvalue. unfold validateField. by rewrite Hvalue, andb_false_r. Qed.

(** On a number field only the number block can answer. *)
Lemma validateField_number_field (value : JsVal) (field : ModelField) :
  f_type field = TNumber ->
  isEmpty value = false ->
  validateField host value field
  = number_checks host value field (default no_validation (f_validation field)).
Proof.
  intros Htype Hvalue. rewrite (validateField_nonempty _ _ Hvalue).
  unfold string_checks, email_check, url_check, date_check, boolean_check.
  rewrite Htype. simpl. unfold fall_through. simpl. apply and_then_pass.
Qed.

(** The number block once the value has been coerced. *)
Lemma number_checks_coerced (value : JsVal) (field : ModelField) (num : float64) :
  f_type field = TNumber ->
  ToNumber host value = Normal num ->
  let validation := default no_validation (f_validation field) in
  number_checks host value field validation
  = if isNaN num then return_ (display field +:+ " must be a number")
    else if below_min validation num
    then return_ (display field +:+ " must be at least "
                  +:+ NumberToString host (default NaN (v_min validation)))
    else if above_max validation num
    then return_ (display field +:+ " must be at most "
                  +:+ NumberToString host (default NaN (v_max validation)))
    else Normal None.
Proof.
  intros Htype Hnum validation. unfold number_checks.
  rewrite (bool_decide_eq_true_2 _ Htype), Hnum. simpl.
  destruct (isNaN num); [done|].
  unfold below_min, above_max.
  destruct (v_min validation) as [min|]; simpl.
  - destruct (lt num min); simpl; [done|].
    destruct (v_max validation) as [max|]; simpl; [|done].
    by destruct (gt num max).
  - destruct (v_max validation) as [max|]; simpl; [|done].
    by destruct (gt num max).
Qed.

End FieldValidator.

(** C7 (as amended).  On a number field, for a value that is not empty and
    that [Number] coerces to [num]: the answer is "<label or name> must be a
    number" exactly when [num] is NaN; otherwise a [num] below the declared
    [min] gets the message for the minimum, a [num] not below it and above
    the declared [max] gets the message for the maximum, and any other
    [num] passes.  The bounds are inclusive: [num] equal to [min] is not
    below it, [num] equal to [max] is not above it. *)
Theorem validateField_number_bounds
    (host : Host) (value : JsVal) (field : ModelField) (num : float64) :
  f_type field = TNumber ->
  isEmpty value = false ->
  ToNumber host value = Normal num ->
  let validation := default no_validation (f_validation field) in
  (validateField host value field
   = Normal (Some (display field +:+ " must be a number"))
   <-> isNaN num = true)
  /\ (isNaN num = false ->
      forall min, v_min validation = Some min -> lt num min = true ->
      validateField host value field
      = Normal (Some (display field +:+ " must be at least "
                      +:+ NumberToString host min)))
  /\ (isNaN num = false -> below_min validation num = false ->
      forall max, v_max validation = Some max -> gt num max = true ->
      validateField host value field
      = Normal (Some (display field +:+ " must be at most "
                      +:+ NumberToString host max)))
  /\ (isNaN num = false -> below_min validation num = false ->
      above_max validation num = false ->
      validateField host value field = Normal None)
  /\ (v_min validation = Some num -> below_min validation num = false)
  /\ (v_max validation = Some num -> above_max validation num = false).
Proof.
  intros Htype Hvalue Hnum validation.
  rewrite (validateField_number_field host _ _ Htype Hvalue).
  rewrite (number_checks_coerced host _ _ _ Htype Hnum).
  fold validation.
  split; [|split; [|split; [|split; [|split]]]].
  - destruct (isNaN num); [done|].
    split; [|discriminate].
    intros Heq. exfalso.
    destruct (below_min validation num); [|destruct (above_max validation num)];
      unfold return_ in Heq; try discriminate Heq;
      injection Heq as Heq; apply append_cancel in Heq; simpl in Heq;
      discriminate Heq.
  - intros Hnan min Hmin Hlt. rewrite Hnan. unfold below_min.
    by rewrite Hmin, Hlt.
  - intros Hnan Hbelow max Hmax Hgt. rewrite Hnan, Hbelow. unfold above_max.
    by rewrite Hmax, Hgt.
  - intros Hnan Hbelow Habove. by rewrite Hnan, Hbelow, Habove.
  - intros Hmin. unfold below_min. rewrite Hmin. apply lt_irrefl.
  - intros Hmax. unfold above_max. rewrite Hmax. apply gt_irrefl.
Qed.

Lemma validateField_number_bounds_witness :
  validateField SmallHost.host (JNum (of_Z 5)) (bounded_number (Some (of_Z 10)) None)
  = Normal (Some "price must be at least 10")
  /\ validateField SmallHost.host (JNum (of_Z 10)) (bounded_number (Some (of_Z 10)) None)
     = Normal None.
Proof.
  split.
  - pose proof (validateField_number_bounds SmallHost.host (JNum (of_Z 5))
                  (bounded_number (Some (of_Z 10)) None) (of_Z 5)
                  eq_refl eq_refl eq_refl) as (_ & Hmin & _).
    exact (Hmin eq_refl (of_Z 10) eq_refl eq_refl).
  - pose proof (validateField_number_bounds SmallHost.host (JNum (of_Z 10))
                  (bounded_number (Some (of_Z 10)) None) (of_Z 10)
                  eq_refl eq_refl eq_refl) as (_ & _ & _ & Hpass & _).
    exact (Hpass eq_refl eq_refl eq_refl).
Defined.

(** An infinite number is accepted by a number field, whatever the host. *)
Lemma validateField_Infinity (host : Host) :
  validateField host (JNum Infinity) (bounded_number None None) = Normal None.
Proof. reflexivity. Qed.

(** C7, the claim as stated fails: a value that does not coerce to a
    finite number need not be answered with "must be a number"; the JSON
    number [1e999] is read as [Infinity], which only NaN would stop. *)
Lemma validateField_not_finite_accepted :
  ~ (forall (host : Host) (value : JsVal) (field : ModelField) (num : float64),
        f_type field = TNumber ->
        isEmpty value = false ->
        ToNumber host value = Normal num ->
        isFinite num = false ->
        validateField host value field
        = Normal (Some (display field +:+ " must be a number"))).
Proof.
  intros Hclaim.
  specialize (Hclaim SmallHost.host (JNum Infinity) (bounded_number None None)
                Infinity eq_refl eq_refl eq_refl eq_refl).
  rewrite validateField_Infinity in Hclaim. discriminate Hclaim.
Qed.

Section FirstFailure.
Context (host : Host).

(** The answer of [first_failure] is that of the first check which does
    not pass: every check before it passed, and no later one is
    consulted. *)
Lemma first_failure_first (checks : list (Completion (option string)))
    (answer : Completion (option string)) :
  first_failure checks = answer ->
  answer <> Normal None ->
  exists passed rest,
    checks = (passed ++ answer :: rest)%list /\ Forall (fun c => c = Normal None) passed.
Proof.
  induction checks as [|c checks IH]; simpl; intros Heq Hfail.
  - by subst answer.
  - destruct c as [[e|]|err]; simpl in Heq.
    + exists [], checks. by subst answer.
    + destruct (IH Heq Hfail) as (passed & rest & -> & Hpassed).
      exists (Normal None :: passed), rest. split; [done|]. by constructor.
    + exists [], checks. by subst answer.
Qed.

Lemma validateField_empty (value : JsVal) (field : ModelField) :
  isEmpty value = true ->
  validateField host value field
  = if isRequired field then Normal (Some (display field +:+ " is required"))
    else Normal None.
Proof.
  intros Hvalue. unfold validateField. rewrite Hvalue, andb_true_r.
  by destruct (isRequired field).
Qed.

(** The handler's nested conditions and the specification's list of
    checks give the same answer. *)
Lemma validateField_refines (value : JsVal) (field : ModelField) :
  validateField host value field = spec_validateField host field value.
Proof.
  unfold spec_validateField. destruct (isEmpty value) eqn:Hvalue.
  { rewrite (validateField_empty _ _ Hvalue). unfold check.
    by destruct (isRequired field). }
  rewrite (validateField_nonempty host _ _ Hvalue).
  unfold number_checks, string_checks, email_check, url_check, date_check,
    boolean_check, first_failure, nan_check, min_check, max_check,
    minLength_check, maxLength_check, pattern_check, email_format, url_format,
    date_format, boolean_format, check, return_, fall_through, truthy_string.
  destruct (f_type field) eqn:Htype; simpl.
  - (* string *)
    destruct (ToString host value) as [str|err]; simpl; [|done].
    destruct (v_minLength _) as [n|]; simpl;
      [destruct (lt _ n); simpl; [done|]|];
      (destruct (v_maxLength _) as [n'|]; simpl;
       [destruct (gt _ n'); simpl; [done|]|]);
      (destruct (v_pattern _) as [pattern|]; simpl; [|done];
       destruct (String.eqb pattern ""); simpl; [done|];
       destruct (RegExp_new host pattern) as [test|]; simpl; [|done];
       by destruct (test str)).
  - (* number *)
    destruct (ToNumber host value) as [num|err]; simpl; [|done].
    destruct (isNaN num); simpl; [done|].
    destruct (v_min _) as [min|]; simpl;
      [destruct (lt num min); simpl; [done|]|];
      (destruct (v_max _) as [max|]; simpl; [|done];
       by destruct (gt num max)).
  - (* boolean *)
    by destruct (is_boolean value), (strict_eq_string value "true"),
         (strict_eq_string value "false").
  - (* date *)
    destruct (ToString host value) as [str|err]; simpl; [|done].
    by destruct (isNaN _).
  - (* email *)
    destruct (ToString host value) as [str|err]; simpl; [|done].
    destruct (v_minLength _) as [n|]; simpl;
      [destruct (lt _ n); simpl; [done|]|];
      (destruct (v_maxLength _) as [n'|]; simpl;
       [destruct (gt _ n'); simpl; [done|]|]);
      (destruct (v_pattern _) as [pattern|]; simpl;
       [destruct (String.eqb pattern ""); simpl;
        [|destruct (RegExp_new host pattern) as [test|]; simpl; [|done];
          destruct (test str); simpl; [|done]]|];
       by destruct (emailRegex_test str)).
  - (* url *)
    destruct (ToString host value) as [str|err]; simpl; [|done].
    destruct (v_minLength _) as [n|]; simpl;
      [destruct (lt _ n); simpl; [done|]|];
      (destruct (v_maxLength _) as [n'|]; simpl;
       [destruct (gt _ n'); simpl; [done|]|]);
      (destruct (v_pattern _) as [pattern|]; simpl;
       [destruct (String.eqb pattern ""); simpl;
        [|destruct (RegExp_new host pattern) as [test|]; simpl; [|done];
          destruct (test str); simpl; [|done]]|];
       by destruct (URL_parses host str)).
Qed.

End FirstFailure.

Section Messages.
Context (host : Host).

Lemma check_says_something (field : ModelField) (failed : bool) (message : string) :
  message <> "" -> says_something (check field failed message).
Proof.
  intros Hmessage e. unfold check. destruct failed; [|discriminate].
  intros [= <-]. unfold truthy_string. apply negb_true_iff, String.eqb_neq.
  destruct (display field) as [|c label].
  - by change ("" +:+ message) with message.
  - by change (String c label +:+ message) with (String c (label +:+ message)).
Qed.

Lemma pass_says_something : says_something (Normal None).
Proof. intros e. discriminate. Qed.

Lemma throw_says_something (err : JsError) : says_something (Throw err).
Proof. intros e. discriminate. Qed.

Lemma first_failure_says_something (checks : list (Completion (option string))) :
  Forall says_something checks -> says_something (first_failure checks).
Proof.
  induction 1 as [|c checks Hc _ IH]; simpl; [apply pass_says_something|].
  by destruct c as [[e|]|err].
Qed.

Lemma bind_says_something (A : Type) (c : Completion A)
    (k : A -> Completion (option string)) :
  (forall a, says_something (k a)) -> says_something (c ≫= k).
Proof. intros Hk. destruct c as [a|err]; [apply Hk|apply throw_says_something]. Qed.

Ltac says :=
  first [ apply pass_says_something
        | apply throw_says_something
        | apply check_says_something; discriminate
        | assumption ].

Lemma spec_validateField_says_something (value : JsVal) (field : ModelField) :
  says_something (spec_validateField host field value).
Proof.
  unfold spec_validateField.
  destruct (isEmpty value); [says|].
  assert (Hmin : forall num, says_something (min_check host field num)).
  { intros num. unfold min_check. destruct (v_min _); says. }
  assert (Hmax : forall num, says_something (max_check host field num)).
  { intros num. unfold max_check. destruct (v_max _); says. }
  assert (HminL : forall str, says_something (minLength_check host field str)).
  { intros str. unfold minLength_check. destruct (v_minLength _); says. }
  assert (HmaxL : forall str, says_something (maxLength_check host field str)).
  { intros str. unfold maxLength_check. destruct (v_maxLength _); says. }
  assert (Hpat : forall str, says_something (pattern_check host field str)).
  { intros str. unfold pattern_check. destruct (v_pattern _) as [p|]; [|says].
    destruct (String.eqb p ""); [says|].
    destruct (RegExp_new host p); says. }
  destruct (f_type field);
    try (apply bind_says_something; intros coerced);
    apply first_failure_says_something;
    repeat (constructor; [first [apply Hmin|apply Hmax|apply HminL|apply HmaxL
                                |apply Hpat|says]|]);
    constructor.
Qed.

Lemma validateField_says_something (value : JsVal) (field : ModelField) (e : string) :
  validateField host value field = Normal (Some e) ->
  truthy_string (Some e) = true.
Proof.
  rewrite validateField_refines. apply spec_validateField_says_something.
Qed.


Lemma assign_proto (V : Type) (obj : gmap string V) (v : V) :
  obj !! "__proto__" = None -> assign obj "__proto__" v = obj.
Proof.
  intros Hnone. unfold assign. rewrite Hnone.
  rewrite bool_decide_eq_false_2; [done|]. by intros [x Hx].
Qed.

Lemma assign_lookup_ne (V : Type) (obj : gmap string V) (k k' : string) (v : V) :
  k <> k' -> assign obj k v !! k' = obj !! k'.
Proof.
  intros Hne. unfold assign. destruct (_ && _); [done|].
  by rewrite lookup_insert_ne.
Qed.

Lemma assign_lookup (V : Type) (obj : gmap string V) (k k' : string) (v x : V) :
  assign obj k v !! k' = Some x -> obj !! k' = Some x \/ (k' = k /\ x = v).
Proof.
  unfold assign. destruct (_ && _); [by left|].
  destruct (decide (k = k')) as [->|Hne].
  - rewrite lookup_insert_eq. intros [= <-]. by right.
  - rewrite lookup_insert_ne by done. by left.
Qed.

Lemma assign_lookup_eq (V : Type) (obj : gmap string V) (k : string) (v : V) :
  k <> "__proto__" \/ is_Some (obj !! k) -> assign obj k v !! k = Some v.
Proof.
  intros Hk. unfold assign.
  replace (String.eqb k "__proto__" && negb (bool_decide (is_Some (obj !! k))))
    with false; [apply lookup_insert_eq|].
  symmetry. apply andb_false_iff. destruct Hk as [Hk|Hk].
  - left. by apply String.eqb_neq.
  - right. by rewrite (bool_decide_eq_true_2 _ Hk).
Qed.



(** One turn of the loop of [validateModelData]. *)
Lemma validate_fields_cons (data : JsObject) (field : ModelField)
    (rest : list ModelField) (errors : gmap string string) :
  validate_fields host data (field :: rest) errors
  = match validateField host (get data (f_name field)) field with
    | Normal (Some e) => validate_fields host data rest (assign errors (f_name field) e)
    | Normal None => validate_fields host data rest errors
    | Throw err => Throw err
    end.
Proof.
  cbn [validate_fields]. unfold mbind, Completion_bind, bind.
  destruct (validateField host (get data (f_name field)) field)
    as [[e|]|err] eqn:Hfield; try done.
  by rewrite (validateField_says_something _ _ _ Hfield).
Qed.



(** Every recorded error is the answer of the field validator for a
    declared field of that name. *)
Lemma validate_fields_origin (data : JsObject) (fields : list ModelField)
    (errors out : gmap string string) (name msg : string) :
  validate_fields host data fields errors = Normal out ->
  out !! name = Some msg ->
  errors !! name = Some msg
  \/ exists field, field ∈ fields /\ f_name field = name
       /\ validateField host (get data name) field = Normal (Some msg).
Proof.
  revert errors. induction fields as [|field rest IH]; intros errors.
  - simpl. intros [= <-]. by left.
  - rewrite validate_fields_cons.
    destruct (validateField host (get data (f_name field)) field)
      as [[e|]|err] eqn:Hfield; [| |done].
    + intros Hrest Hout. destruct (IH _ Hrest Hout) as [Hin|(f & Hf & Hn & Hv)].
      * apply assign_lookup in Hin as [Hin|[-> ->]]; [by left|].
        right. exists field. repeat split; [|done].
        apply list_elem_of_here.
      * right. exists f. repeat split; try done. by apply list_elem_of_further.
    + intros Hrest Hout. destruct (IH _ Hrest Hout) as [Hin|(f & Hf & Hn & Hv)].
      * by left.
      * right. exists f. repeat split; try done. by apply list_elem_of_further.
Qed.


End Messages.

(** C8.  [required] is the disjunction of the two places a field can
    declare it; a value is empty exactly when it is [null], [undefined] or
    the empty string, and for such a value the answer is "<label or name>
    is required" when the field is required and no error otherwise,
    whatever else the field declares; for every value the answer is that
    of the first check, in the order of the specification, that does not
    pass; and every error [validateModelData] reports under a name is the
    one answer of the field validator for a declared field of that
    name. *)
Theorem validateField_required_then_first_failure
    (host : Host) (value : JsVal) (field : ModelField) :
  (isRequired field = true
   <-> (f_validation field ≫= v_required) = Some true
       \/ f_required field = Some true)
  /\ (isEmpty value = true
      <-> value = JNull \/ value = JUndefined \/ value = JStr "")
  /\ (isEmpty value = true ->
      validateField host value field
      = if isRequired field then Normal (Some (display field +:+ " is required"))
        else Normal None)
  /\ validateField host value field = spec_validateField host field value
  /\ (forall checks answer,
        first_failure checks = answer -> answer <> Normal None ->
        exists passed rest,
          checks = (passed ++ answer :: rest)%list
          /\ Forall (fun c => c = Normal None) passed)
  /\ (forall data model errors name msg,
        validateModelData host data model = Normal errors ->
        errors !! name = Some msg ->
        exists declared,
          declared ∈ m_fields model /\ f_name declared = name
          /\ validateField host (get data name) declared = Normal (Some msg)).
Proof.
  split; [|split; [|split; [|split; [|split]]]].
  - unfold isRequired. rewrite orb_true_iff.
    destruct (f_validation field) as [validation|]; simpl.
    + destruct (v_required validation) as [[]|], (f_required field) as [[]|];
        simpl; intuition congruence.
    + destruct (f_required field) as [[]|]; simpl; intuition congruence.
  - destruct value; simpl; try (intuition congruence).
    rewrite String.eqb_eq. intuition congruence.
  - apply validateField_empty.
  - apply validateField_refines.
  - apply first_failure_first.
  - intros data model errors name msg Hvalid Hname.
    destruct (validate_fields_origin host _ _ _ _ _ _ Hvalid Hname) as [Hempty|Hfield].
    + by rewrite lookup_empty in Hempty.
    + done.
Qed.

Lemma validateField_required_then_first_failure_witness :
  validateField SmallHost.host JUndefined (Scenario.field "name" TString true)
  = Normal (Some "name is required")
  /\ validateField SmallHost.host (JStr "") (Scenario.field "name" TString false)
     = Normal None.
Proof.
  split.
  - pose proof (validateField_required_then_first_failure SmallHost.host JUndefined
                  (Scenario.field "name" TString true)) as (_ & _ & Hempty & _).
    exact (Hempty eq_refl).
  - pose proof (validateField_required_then_first_failure SmallHost.host (JStr "")
                  (Scenario.field "name" TString false)) as (_ & _ & Hempty & _).
    exact (Hempty eq_refl).
Defined.

(** C9 (the code departs from the claim).  The field validator throws:
    a pattern the host refuses makes [new RegExp] throw a SyntaxError
    outside any [try], for every non-empty value that can be printed; and
    an object with an own property [toString] cannot be coerced, a
    TypeError, on a field of any type but boolean. *)
Theorem validateField_throws (host : Host) :
  (forall (pattern : string) (value : JsVal) (str : string),
      pattern <> "" ->
      RegExp_new host pattern = None ->
      isEmpty value = false ->
      ToString host value = Normal str ->
      validateField host value (pattern_field pattern) = Throw SyntaxError)
  /\ (forall (field : ModelField) (o : JsObject),
        f_type field <> TBoolean ->
        is_Some (o !! "toString") ->
        validateField host (JObj o) field = Throw TypeError).
Proof.
  split.
  - intros pattern value str Hpattern Hrefused Hvalue Hstr.
    rewrite validateField_refines. unfold spec_validateField.
    rewrite Hvalue. simpl. rewrite Hstr. simpl.
    unfold pattern_check. simpl.
    apply String.eqb_neq in Hpattern. by rewrite Hpattern, Hrefused.
  - intros field o Htype [v Hown].
    rewrite validateField_refines. unfold spec_validateField. simpl.
    destruct (f_type field); simpl; rewrite ?Hown; done.
Qed.

Lemma validateField_throws_witness :
  validateField SmallHost.host (JStr "abc") (pattern_field "(") = Throw SyntaxError
  /\ validateField SmallHost.host (JObj {[ "toString" := JNum one ]})
       (Scenario.field "name" TString true) = Throw TypeError.
Proof.
  split.
  - apply (proj1 (validateField_throws SmallHost.host) "(" (JStr "abc") "abc").
    + discriminate.
    + reflexivity.
    + reflexivity.
    + reflexivity.
  - apply (proj2 (validateField_throws SmallHost.host)).
    + discriminate.
    + by eexists.
Defined.

(* ===================================================================== *)
(** * Validation of an update *)
(* ===================================================================== *)

Section Update.
Context (host : Host).








End Update.




(* ===================================================================== *)
(** * The scenario, run *)
(* ===================================================================== *)

(** The update of section 8 and its neighbours: a viewer is stopped at the
    permission check, the owner's partial update is stored, and a payload
    that blanks the required name is answered with the validation error. *)
Example scenario_updates :
  snd (Item.PUT SmallHost.host (Scenario.server [("r1", Scenario.widget)])
         (Some Scenario.v1) "Product" "r1" {[ "price" := JNum (of_Z 120) ]})
  = json (ErrorBody "Permission denied") 403
  /\ snd (Item.PUT SmallHost.host (Scenario.server [("r1", Scenario.widget)])
            (Some Scenario.m1) "Product" "r1" {[ "price" := JNum (of_Z 120) ]})
     = json (RecordBody (Some (Scenario.record "r1" "Widget" 120 (JStr "m1")))) 200
  /\ snd (Item.PUT SmallHost.host (Scenario.server [("r1", Scenario.widget)])
            (Some Scenario.m1) "Product" "r1" {[ "name" := JStr "" ]})
     = json (ValidationBody "Validation failed" {[ "name" := "name is required" ]}) 400
  /\ validateModelData SmallHost.host {[ "price" := JNum (of_Z 120) ]} Scenario.Product
     = Normal {[ "name" := "name is required" ]}.
Proof. repeat split; vm_compute; reflexivity. Qed.

(** The list of section 8: the manager [m1] sees their own record and not
    the one of [m2]. *)
Example scenario_list :
  Collection.GET
    (Scenario.server [("r1", Scenario.widget);
                      ("r2", Scenario.record "r2" "Gadget" 5 (JStr "m2"))])
    (Some Scenario.m1) "Product"
  = json (DataBody [Scenario.widget]) 200.
Proof. vm_compute. reflexivity. Qed.

(** Cases of the repository's tests of [validateModelData]. *)
Example repository_validation_cases :
  validateField SmallHost.host (JStr "abc") (bounded_number None None)
  = Normal (Some "price must be a number")
  /\ validateField SmallHost.host (JStr "not-an-email")
       (Scenario.field "email" TEmail false)
     = Normal (Some "email must be a valid email")
  /\ validateField SmallHost.host (JStr "a@b.com") (Scenario.field "email" TEmail false)
     = Normal None
  /\ validateField SmallHost.host (JStr "yes") (Scenario.field "inStock" TBoolean false)
     = Normal (Some "inStock must be a boolean value")
  /\ validateField SmallHost.host (JStr "not-a-url") (Scenario.field "website" TUrl false)
     = Normal (Some "website must be a valid URL")
  /\ validateField SmallHost.host (JStr "2025-12-31")
       (Scenario.field "eventDate" TDate true)
     = Normal None.
Proof. repeat split; vm_compute; reflexivity. Qed.

(* ===================================================================== *)
(** * What the handlers do guarantee *)
(* ===================================================================== *)

Section Guarantees.

Lemma JsMap_get_set (V : Type) (m : list (string * V)) (k : string) (v : V) :
  JsMap.get (JsMap.set m k v) k = Some v.
Proof.
  induction m as [|[k' v'] m IH]; simpl.
  - by rewrite String.eqb_refl.
  - destruct (String.eqb k' k) eqn:Hk; simpl; by rewrite Hk.
Qed.


End Guarantees.

(** Without a rule, or without an entry for the action in the rule, an
    action is allowed to Admin and to nobody else. *)
Theorem canPerformAction_secure_default (role : UserRole) (action : Action) :
  (canPerformAction role action None = true <-> role = Admin)
  /\ (forall rule,
        rule_entry rule action = None ->
        canPerformAction role action (Some rule) = true <-> role = Admin).
Proof.
  split.
  - by apply canPerformAction_default.
  - intros rule Hentry. by apply canPerformAction_default.
Qed.

Lemma canPerformAction_secure_default_witness :
  canPerformAction Manager Update (Some Scenario.managers_create) = true
  <-> Manager = Admin.
Proof.
  apply (proj2 (canPerformAction_secure_default Manager Update)
           Scenario.managers_create).
  reflexivity.
Defined.



(* ===================================================================== *)
(** * The record store (lib/dataStore.ts) *)
(* ===================================================================== *)

Section MapLaws.
Context {V : Type}.
Implicit Types (m : list (string * V)) (k : string) (v : V).

Lemma JsMap_get_set_ne m k k' v :
  k <> k' -> JsMap.get (JsMap.set m k v) k' = JsMap.get m k'.
Proof.
  intros Hne. induction m as [|[k0 v0] m IH]; simpl.
  - apply String.eqb_neq in Hne. by rewrite Hne.
  - destruct (String.eqb k0 k) eqn:Hk; simpl; [|by rewrite IH].
    apply String.eqb_eq in Hk. subst k0.
    apply String.eqb_neq in Hne. by rewrite Hne.
Qed.

Lemma JsMap_has_get m k : JsMap.has m k = bool_decide (is_Some (JsMap.get m k)).
Proof.
  induction m as [|[k0 v0] m IH]; simpl; [done|].
  by destruct (String.eqb k0 k).
Qed.

Lemma JsMap_get_delete m k : JsMap.get (JsMap.delete m k) k = None.
Proof.
  induction m as [|[k0 v0] m IH]; simpl; [done|].
  destruct (String.eqb k0 k) eqn:Hk; simpl; [done|]. by rewrite Hk.
Qed.

Lemma JsMap_get_delete_ne m k k' :
  k <> k' -> JsMap.get (JsMap.delete m k) k' = JsMap.get m k'.
Proof.
  intros Hne. induction m as [|[k0 v0] m IH]; simpl; [done|].
  destruct (String.eqb k0 k) eqn:Hk; simpl.
  - apply String.eqb_eq in Hk. subst k0.
    apply String.eqb_neq in Hne. by rewrite Hne.
  - by rewrite IH.
Qed.

Lemma JsMap_get_None_keys m k : JsMap.get m k = None <-> k ∉ JsMap.keys m.
Proof.
  induction m as [|[k0 v0] m IH]; simpl.
  - split; [intros _; apply not_elem_of_nil|done].
  - rewrite not_elem_of_cons. destruct (String.eqb k0 k) eqn:Hk.
    + apply String.eqb_eq in Hk. split; [done|]. by intros [? _].
    + apply String.eqb_neq in Hk. rewrite IH. split; [by split|by intros [_ ?]].
Qed.

Lemma JsMap_delete_absent m k : JsMap.get m k = None -> JsMap.delete m k = m.
Proof.
  induction m as [|[k0 v0] m IH]; simpl; [done|].
  destruct (String.eqb k0 k); simpl; [done|]. intros Hget. by rewrite IH.
Qed.

Lemma JsMap_set_absent m k v :
  JsMap.get m k = None -> JsMap.set m k v = (m ++ [(k, v)])%list.
Proof.
  induction m as [|[k0 v0] m IH]; simpl; [done|].
  destruct (String.eqb k0 k); [done|]. intros Hget. by rewrite IH.
Qed.

Lemma JsMap_keys_set_present m k v :
  is_Some (JsMap.get m k) -> JsMap.keys (JsMap.set m k v) = JsMap.keys m.
Proof.
  induction m as [|[k0 v0] m IH]; simpl.
  - by intros [? ?].
  - destruct (String.eqb k0 k); simpl; [done|]. intros Hget. by rewrite IH.
Qed.

Lemma JsMap_keys_delete m k :
  JsMap.keys (JsMap.delete m k)
  = List.filter (fun k' => negb (String.eqb k' k)) (JsMap.keys m).
Proof.
  induction m as [|[k0 v0] m IH]; simpl; [done|].
  destruct (String.eqb k0 k); simpl; by rewrite IH.
Qed.

Lemma NoDup_filter_keys (keep : string -> bool) (l : list string) :
  NoDup l -> NoDup (List.filter keep l).
Proof.
  induction 1 as [|k l Hk _ IH]; simpl; [constructor|].
  destruct (keep k); [|done]. constructor; [|done].
  intros Hin. apply Hk. apply list_elem_of_In in Hin.
  apply filter_In in Hin as [Hin _]. by apply list_elem_of_In.
Qed.

Lemma JsMap_set_unique m k v :
  NoDup (JsMap.keys m) -> NoDup (JsMap.keys (JsMap.set m k v)).
Proof.
  intros Hm. destruct (JsMap.get m k) as [v0|] eqn:Hget.
  - rewrite JsMap_keys_set_present; [done|by eexists].
  - rewrite (JsMap_set_absent _ _ _ Hget). unfold JsMap.keys.
    rewrite map_app. simpl. apply NoDup_app. split; [done|].
    split; [|apply NoDup_singleton].
    intros k' Hin Hk. apply list_elem_of_singleton in Hk. subst k'.
    by apply JsMap_get_None_keys in Hget.
Qed.

Lemma JsMap_delete_unique m k :
  NoDup (JsMap.keys m) -> NoDup (JsMap.keys (JsMap.delete m k)).
Proof. intros Hm. rewrite JsMap_keys_delete. by apply NoDup_filter_keys. Qed.

(** With unique keys, the values are what [get] can reach. *)
Lemma JsMap_values_get m v :
  NoDup (JsMap.keys m) ->
  v ∈ JsMap.values m <-> exists k, JsMap.get m k = Some v.
Proof.
  induction m as [|[k0 v0] m IH]; simpl; intros Hm.
  - split; [by intros ?%elem_of_nil|by intros [? ?]].
  - apply NoDup_cons in Hm as [Hk0 Hm]. rewrite elem_of_cons, (IH Hm). split.
    + intros [->|[k Hk]].
      * exists k0. by rewrite String.eqb_refl.
      * exists k. destruct (String.eqb k0 k) eqn:Heq; [|done].
        apply String.eqb_eq in Heq. subst k0. exfalso.
        apply JsMap_get_None_keys in Hk0. by rewrite Hk0 in Hk.
    + intros [k Hk]. destruct (String.eqb k0 k); [left; congruence|right; eauto].
Qed.

End MapLaws.

Section RecordStore.
Implicit Types (ds : DataStore) (data : JsObject).

Lemma getRecordById_insert ds modelName modelStore m i :
  getRecordById (<[modelName := modelStore]> ds) m i
  = if decide (modelName = m) then JsMap.get modelStore i else getRecordById ds m i.
Proof.
  unfold getRecordById. destruct (decide (modelName = m)) as [->|Hne].
  - by rewrite lookup_insert_eq.
  - by rewrite lookup_insert_ne.
Qed.

Lemma getModelData_insert ds modelName modelStore :
  getModelData (<[modelName := modelStore]> ds) modelName = JsMap.values modelStore.
Proof. unfold getModelData. by rewrite lookup_insert_eq. Qed.

Lemma JsMap_delete_length (V : Type) (m : list (string * V)) (k : string) (v : V) :
  NoDup (JsMap.keys m) -> JsMap.get m k = Some v ->
  length (JsMap.delete m k) + 1 = length m.
Proof.
  induction m as [|[k0 v0] m IH]; simpl; [done|].
  intros [Hk0 Hm]%NoDup_cons. destruct (String.eqb k0 k) eqn:Hk; simpl.
  - intros _. apply String.eqb_eq in Hk. subst k0.
    apply JsMap_get_None_keys in Hk0. rewrite (JsMap_delete_absent _ _ Hk0). lia.
  - intros Hget. by rewrite <- (IH Hm Hget).
Qed.

Lemma JsMap_set_length (V : Type) (m : list (string * V)) (k : string) (v : V) :
  is_Some (JsMap.get m k) -> length (JsMap.set m k v) = length m.
Proof.
  induction m as [|[k0 v0] m IH]; simpl; [by intros [? ?]|].
  destruct (String.eqb k0 k); simpl; [done|]. intros Hget. by rewrite IH.
Qed.

End RecordStore.

Lemma createRecord_laws
    (ds : DataStore) (modelName id : string) (data : JsObject) :
  getRecordById (fst (createRecord ds modelName id data)) modelName id
  = Some (snd (createRecord ds modelName id data))
  /\ snd (createRecord ds modelName id data) !! "id"
     = Some (default (JStr id) (data !! "id"))
  /\ (forall k, k <> "id" ->
        snd (createRecord ds modelName id data) !! k = data !! k)
  /\ (forall m i, m <> modelName \/ i <> id ->
        getRecordById (fst (createRecord ds modelName id data)) m i
        = getRecordById ds m i)
  /\ (getRecordById ds modelName id = None ->
      getModelData (fst (createRecord ds modelName id data)) modelName
      = (getModelData ds modelName ++ [snd (createRecord ds modelName id data)])%list)
  /\ (is_Some (getRecordById ds modelName id) ->
      length (getModelData (fst (createRecord ds modelName id data)) modelName)
      = length (getModelData ds modelName)).
Proof.
  unfold createRecord. simpl. split; [|split; [|split; [|split; [|split]]]].
  - rewrite getRecordById_insert, decide_True by done. apply JsMap_get_set.
  - unfold spread. destruct (data !! "id") as [v|] eqn:Hid; simpl.
    + by rewrite (lookup_union_Some_l _ _ _ _ Hid).
    + rewrite lookup_union_r by done. apply lookup_singleton_eq.
  - intros k Hk. unfold spread. destruct (data !! k) as [v|] eqn:Hdata.
    + by rewrite (lookup_union_Some_l _ _ _ _ Hdata).
    + rewrite lookup_union_r by done. by rewrite lookup_singleton_ne.
  - intros m i Hother. rewrite getRecordById_insert.
    destruct (decide (modelName = m)) as [<-|Hm]; [|done].
    destruct Hother as [Hm|Hi]; [done|].
    rewrite JsMap_get_set_ne by done. unfold getRecordById.
    by destruct (ds !! modelName).
  - intros Hfresh. rewrite getModelData_insert.
    unfold getRecordById, getModelData in *.
    destruct (ds !! modelName) as [modelStore|]; simpl; [|done].
    rewrite (JsMap_set_absent _ _ _ Hfresh). unfold JsMap.values.
    by rewrite map_app.
  - intros Hused. rewrite getModelData_insert.
    unfold getRecordById, getModelData in *.
    destruct (ds !! modelName) as [modelStore|]; simpl; [|by destruct Hused].
    unfold JsMap.values. rewrite !length_map. by apply JsMap_set_length.
Qed.

(** A record that [createRecord] stores is found again under the
    identifier drawn for it, with the payload's properties and an [id]
    property which is the payload's when the payload has one and the drawn
    identifier otherwise; no other record of any model is touched; under a
    fresh identifier the record comes last in the model's listing, and
    under a used one it takes the place of the record that was there. *)
Theorem createRecord_then_lookup
    (ds : DataStore) (modelName id : string) (data : JsObject) :
  getRecordById (fst (createRecord ds modelName id data)) modelName id
  = Some (snd (createRecord ds modelName id data))
  /\ snd (createRecord ds modelName id data) !! "id"
     = Some (default (JStr id) (data !! "id"))
  /\ (forall k, k <> "id" ->
        snd (createRecord ds modelName id data) !! k = data !! k)
  /\ (forall m i, m <> modelName \/ i <> id ->
        getRecordById (fst (createRecord ds modelName id data)) m i
        = getRecordById ds m i)
  /\ (getRecordById ds modelName id = None ->
      getModelData (fst (createRecord ds modelName id data)) modelName
      = (getModelData ds modelName ++ [snd (createRecord ds modelName id data)])%list)
  /\ (is_Some (getRecordById ds modelName id) ->
      length (getModelData (fst (createRecord ds modelName id data)) modelName)
      = length (getModelData ds modelName)).
Proof. apply createRecord_laws. Qed.

Lemma updateRecord_laws
    (ds : DataStore) (modelName id : string) (data : JsObject) :
  (getRecordById ds modelName id = None ->
   updateRecord ds modelName id data = (ds, None))
  /\ (forall existing,
        getRecordById ds modelName id = Some existing ->
        exists updated,
          snd (updateRecord ds modelName id data) = Some updated
          /\ getRecordById (fst (updateRecord ds modelName id data)) modelName id
             = Some updated
          /\ updated !! "id" = Some (JStr id)
          /\ (forall k, k <> "id" ->
                updated !! k
                = match data !! k with
                  | Some v => Some v
                  | None => existing !! k
                  end)
          /\ (forall m i, m <> modelName \/ i <> id ->
                getRecordById (fst (updateRecord ds modelName id data)) m i
                = getRecordById ds m i)
          /\ length (getModelData (fst (updateRecord ds modelName id data)) modelName)
             = length (getModelData ds modelName)).
Proof.
  unfold updateRecord, getRecordById, getModelData. split.
  - destruct (ds !! modelName) as [modelStore|]; [|done]. by intros ->.
  - intros existing Hget.
    destruct (ds !! modelName) as [modelStore|] eqn:Hstore; [|done].
    rewrite Hget. simpl. eexists. split; [done|].
    split; [by rewrite lookup_insert_eq, JsMap_get_set|].
    split; [by rewrite lookup_insert_eq|].
    split; [|split].
    + intros k Hk. rewrite lookup_insert_ne by done. unfold spread.
      destruct (data !! k) as [v|] eqn:Hdata.
      * by rewrite (lookup_union_Some_l _ _ _ _ Hdata).
      * by rewrite lookup_union_r.
    + intros m i Hother. destruct (decide (modelName = m)) as [<-|Hm].
      * destruct Hother as [Hm|Hi]; [done|].
        by rewrite lookup_insert_eq, Hstore, JsMap_get_set_ne.
      * by rewrite lookup_insert_ne.
    + rewrite lookup_insert_eq. unfold JsMap.values. rewrite !length_map.
      apply JsMap_set_length. by eexists.
Qed.

(** [updateRecord] on an identifier the model does not hold changes
    nothing and answers [null].  On a held one, the record found afterwards
    is the answer: its [id] is the identifier whatever the payload says,
    every other property is the payload's when the payload has it and the
    stored one otherwise; no other record is touched and the listing keeps
    its length. *)
Theorem updateRecord_overlay
    (ds : DataStore) (modelName id : string) (data : JsObject) :
  (getRecordById ds modelName id = None ->
   updateRecord ds modelName id data = (ds, None))
  /\ (forall existing,
        getRecordById ds modelName id = Some existing ->
        exists updated,
          snd (updateRecord ds modelName id data) = Some updated
          /\ getRecordById (fst (updateRecord ds modelName id data)) modelName id
             = Some updated
          /\ updated !! "id" = Some (JStr id)
          /\ (forall k, k <> "id" ->
                updated !! k
                = match data !! k with
                  | Some v => Some v
                  | None => existing !! k
                  end)
          /\ (forall m i, m <> modelName \/ i <> id ->
                getRecordById (fst (updateRecord ds modelName id data)) m i
                = getRecordById ds m i)
          /\ length (getModelData (fst (updateRecord ds modelName id data)) modelName)
             = length (getModelData ds modelName)).
Proof. apply updateRecord_laws. Qed.

Lemma updateRecord_overlay_witness :
  exists updated,
    snd (updateRecord (dataStore (Scenario.server [("r1", Scenario.widget)])) "Product" "r1"
           {[ "id" := JStr "other"; "price" := JNum (of_Z 7) ]})
    = Some updated
    /\ updated !! "id" = Some (JStr "r1")
    /\ updated !! "price" = Some (JNum (of_Z 7))
    /\ updated !! "name" = Some (JStr "Widget").
Proof.
  destruct (proj2 (updateRecord_overlay (dataStore (Scenario.server [("r1", Scenario.widget)]))
                     "Product" "r1"
                     {[ "id" := JStr "other"; "price" := JNum (of_Z 7) ]})
              Scenario.widget eq_refl)
    as (updated & Hsnd & _ & Hid & Hother & _).
  exists updated. split; [exact Hsnd|]. split; [exact Hid|]. split.
  - exact (Hother "price" ltac:(discriminate)).
  - exact (Hother "name" ltac:(discriminate)).
Defined.

Lemma deleteRecord_laws
    (ds : DataStore) (modelName id : string) :
  snd (deleteRecord ds modelName id)
  = bool_decide (is_Some (getRecordById ds modelName id))
  /\ getRecordById (fst (deleteRecord ds modelName id)) modelName id = None
  /\ (forall m i, m <> modelName \/ i <> id ->
        getRecordById (fst (deleteRecord ds modelName id)) m i
        = getRecordById ds m i)
  /\ (snd (deleteRecord ds modelName id) = false ->
      fst (deleteRecord ds modelName id) = ds)
  /\ (unique_ids ds -> snd (deleteRecord ds modelName id) = true ->
      length (getModelData (fst (deleteRecord ds modelName id)) modelName) + 1
      = length (getModelData ds modelName)).
Proof.
  unfold deleteRecord, getRecordById, getModelData.
  destruct (ds !! modelName) as [modelStore|] eqn:Hstore; simpl.
  - split; [apply JsMap_has_get|].
    split; [by rewrite lookup_insert_eq, JsMap_get_delete|].
    split; [|split].
    + intros m i Hother. destruct (decide (modelName = m)) as [<-|Hm].
      * destruct Hother as [Hm|Hi]; [done|].
        by rewrite lookup_insert_eq, Hstore, JsMap_get_delete_ne.
      * by rewrite lookup_insert_ne.
    + rewrite JsMap_has_get. intros Hnone%bool_decide_eq_false.
      rewrite JsMap_delete_absent; [by apply insert_id|].
      destruct (JsMap.get modelStore id); [|done]. exfalso. apply Hnone. by eexists.
    + rewrite JsMap_has_get. intros Hunique [v Hget]%bool_decide_eq_true.
      rewrite lookup_insert_eq. unfold JsMap.values. rewrite !length_map.
      apply (JsMap_delete_length _ _ _ v); [|done]. by apply (Hunique modelName).
  - rewrite Hstore. repeat split; try done.
Qed.

(** [deleteRecord] answers whether the model held the identifier; the
    identifier is not found afterwards, no other record is touched, a
    [false] answer leaves the store as it was, and a [true] one shortens
    the model's listing by exactly one record. *)
Theorem deleteRecord_removes
    (ds : DataStore) (modelName id : string) :
  snd (deleteRecord ds modelName id)
  = bool_decide (is_Some (getRecordById ds modelName id))
  /\ getRecordById (fst (deleteRecord ds modelName id)) modelName id = None
  /\ (forall m i, m <> modelName \/ i <> id ->
        getRecordById (fst (deleteRecord ds modelName id)) m i
        = getRecordById ds m i)
  /\ (snd (deleteRecord ds modelName id) = false ->
      fst (deleteRecord ds modelName id) = ds)
  /\ (unique_ids ds -> snd (deleteRecord ds modelName id) = true ->
      length (getModelData (fst (deleteRecord ds modelName id)) modelName) + 1
      = length (getModelData ds modelName)).
Proof. apply deleteRecord_laws. Qed.

Lemma deleteRecord_removes_witness :
  length (getModelData
            (fst (deleteRecord (dataStore (Scenario.server [("r1", Scenario.widget)]))
                    "Product" "r1")) "Product") + 1
  = length (getModelData (dataStore (Scenario.server [("r1", Scenario.widget)])) "Product").
Proof.
  apply (deleteRecord_removes (dataStore (Scenario.server [("r1", Scenario.widget)]))
           "Product" "r1").
  - intros modelName modelStore Hstore. simpl in Hstore.
    destruct (decide (modelName = "Product")) as [->|Hne].
    + rewrite lookup_singleton_eq in Hstore. injection Hstore as <-.
      simpl. apply NoDup_singleton.
    + by rewrite lookup_singleton_ne in Hstore.
  - reflexivity.
Defined.

(** The invariant of the representation: the association list that
    stands for a [Map] holds a key once, and the three writers keep it
    so.  It is what [unique_ids] asks of a store in the statements
    about the handlers. *)
Lemma unique_ids_kept
    (ds : DataStore) (modelName id : string) (data : JsObject) :
  unique_ids ds ->
  unique_ids (fst (createRecord ds modelName id data))
  /\ unique_ids (fst (updateRecord ds modelName id data))
  /\ unique_ids (fst (deleteRecord ds modelName id)).
Proof.
  intros Hunique.
  assert (Hinsert : forall modelStore,
            NoDup (JsMap.keys modelStore) ->
            unique_ids (<[modelName := modelStore]> ds)).
  { intros modelStore Hstore m store. destruct (decide (modelName = m)) as [<-|Hm].
    - rewrite lookup_insert_eq. by intros [= <-].
    - rewrite lookup_insert_ne by done. apply Hunique. }
  split; [|split].
  - unfold createRecord. simpl. apply Hinsert, JsMap_set_unique.
    destruct (ds !! modelName) as [modelStore|] eqn:Hstore; simpl.
    + by apply (Hunique modelName).
    + constructor.
  - unfold updateRecord.
    destruct (ds !! modelName) as [modelStore|] eqn:Hstore; [|done].
    destruct (JsMap.get modelStore id); [|done]. simpl.
    apply Hinsert, JsMap_set_unique. by apply (Hunique modelName).
  - unfold deleteRecord.
    destruct (ds !! modelName) as [modelStore|] eqn:Hstore; [|done]. simpl.
    apply Hinsert, JsMap_delete_unique. by apply (Hunique modelName).
Qed.

(* ===================================================================== *)
(** * The model definitions (lib/models.ts) *)
(* ===================================================================== *)

Section ModelStore.

Lemma trim_start_nil (l : list ascii) :
  trim_start l = [] <-> forallb is_space l = true.
Proof.
  induction l as [|c l IH]; simpl; [done|].
  destruct (is_space c); simpl; [done|]. split; discriminate.
Qed.

Lemma trim_start_spaces (l : list ascii) :
  forallb is_space (trim_start l) = forallb is_space l.
Proof.
  induction l as [|c l IH]; simpl; [done|].
  destruct (is_space c) eqn:Hc; simpl; [done|]. by rewrite Hc.
Qed.

Lemma forallb_rev (A : Type) (f : A -> bool) (l : list A) :
  forallb f (rev l) = forallb f l.
Proof.
  induction l as [|a l IH]; simpl; [done|].
  rewrite forallb_app, IH. simpl. rewrite andb_true_r. apply andb_comm.
Qed.

(** [s.trim() === ''] holds exactly of the strings of white space. *)
Lemma trim_empty (s : string) :
  trim s = "" <-> forallb is_space (list_ascii_of_string s) = true.
Proof.
  unfold trim.
  set (l := list_ascii_of_string s).
  rewrite <- (trim_start_spaces l), <- (forallb_rev _ _ (trim_start l)).
  rewrite <- trim_start_nil.
  destruct (trim_start (rev (trim_start l))) as [|c rest] eqn:Htrim; simpl; [done|].
  split; [|discriminate].
  destruct (rev rest ++ [c])%list as [|c' rest'] eqn:Hrev; simpl; [|discriminate].
  by destruct (rev rest).
Qed.

End ModelStore.

Lemma saveModel_laws
    (models : gmap string ModelDefinition) (model : ModelDefinition)
    (name : string) :
  (saveModel models model = inl (Error "Model name cannot be empty")
   <-> forallb is_space (list_ascii_of_string (m_name model)) = true)
  /\ (forallb is_space (list_ascii_of_string (m_name model)) = false ->
      exists saved,
        saveModel models model = inr saved
        /\ saved !! m_name model = Some model
        /\ (forall other, other <> m_name model -> saved !! other = models !! other)
        /\ deleteModel saved (m_name model) = (delete (m_name model) models, true))
  /\ (snd (deleteModel models name) = true <-> is_Some (models !! name))
  /\ fst (deleteModel models name) !! name = None
  /\ (forall other, other <> name ->
        fst (deleteModel models name) !! other = models !! other).
Proof.
  assert (Hthrows : negb (truthy_string (Some (m_name model)))
                    || String.eqb (trim (m_name model)) ""
                    = forallb is_space (list_ascii_of_string (m_name model))).
  { destruct (forallb is_space _) eqn:Hspaces.
    - apply trim_empty in Hspaces. rewrite Hspaces. simpl. apply orb_true_r.
    - apply orb_false_iff. split.
      + simpl. rewrite negb_involutive. apply String.eqb_neq. intros Hname.
        rewrite Hname in Hspaces. discriminate Hspaces.
      + apply String.eqb_neq. intros Htrim. apply trim_empty in Htrim. congruence. }
  unfold saveModel, deleteModel. rewrite Hthrows. simpl.
  split; [|split; [|split; [|split]]].
  - destruct (forallb is_space _); [done|]. split; discriminate.
  - intros ->. eexists. split; [done|]. split; [apply lookup_insert_eq|].
    split.
    + intros other Hother. by rewrite lookup_insert_ne.
    + f_equal.
      * apply delete_insert_eq.
      * apply bool_decide_eq_true. rewrite lookup_insert_eq. by eexists.
  - apply bool_decide_eq_true.
  - apply lookup_delete_eq.
  - intros other Hother. by rewrite lookup_delete_ne.
Qed.

(** [saveModel] throws exactly when the name is empty or made of white
    space only; otherwise the definition is then found under its name, in
    place of any earlier one, the other names keep theirs, and
    [deleteModel] of that name removes it and answers [true].
    [deleteModel] answers whether the name was defined, leaves it
    undefined and the other names untouched. *)
Theorem saveModel_deleteModel_by_name
    (models : gmap string ModelDefinition) (model : ModelDefinition)
    (name : string) :
  (saveModel models model = inl (Error "Model name cannot be empty")
   <-> forallb is_space (list_ascii_of_string (m_name model)) = true)
  /\ (forallb is_space (list_ascii_of_string (m_name model)) = false ->
      exists saved,
        saveModel models model = inr saved
        /\ saved !! m_name model = Some model
        /\ (forall other, other <> m_name model -> saved !! other = models !! other)
        /\ deleteModel saved (m_name model) = (delete (m_name model) models, true))
  /\ (snd (deleteModel models name) = true <-> is_Some (models !! name))
  /\ fst (deleteModel models name) !! name = None
  /\ (forall other, other <> name ->
        fst (deleteModel models name) !! other = models !! other).
Proof. apply saveModel_laws. Qed.

Lemma saveModel_deleteModel_by_name_witness :
  exists saved,
    saveModel ∅ Scenario.Product = inr saved
    /\ saved !! "Product" = Some Scenario.Product.
Proof.
  destruct (proj1 (proj2 (saveModel_deleteModel_by_name ∅ Scenario.Product "Product"))
              eq_refl)
    as (saved & Hsaved & Hfound & _).
  exists saved. split; [exact Hsaved|exact Hfound].
Defined.

(* ===================================================================== *)
(** * More on the validators *)
(* ===================================================================== *)

Section ModelValidator.
Context (host : Host).

Lemma validate_fields_pass (data : JsObject) (fields : list ModelField)
    (errors : gmap string string) :
  Forall (fun field => validateField host (get data (f_name field)) field = Normal None)
    fields ->
  validate_fields host data fields errors = Normal errors.
Proof.
  induction 1 as [|field rest Hfield _ IH]; [done|].
  by rewrite validate_fields_cons, Hfield.
Qed.



Lemma validate_fields_agree (data1 data2 : JsObject) (fields : list ModelField)
    (errors : gmap string string) :
  (forall field, field ∈ fields -> get data1 (f_name field) = get data2 (f_name field)) ->
  validate_fields host data1 fields errors = validate_fields host data2 fields errors.
Proof.
  revert errors. induction fields as [|field rest IH]; intros errors Hagree; [done|].
  rewrite !validate_fields_cons, (Hagree field (list_elem_of_here _ _)).
  assert (Hrest : forall f, f ∈ rest -> get data1 (f_name f) = get data2 (f_name f)).
  { intros f Hin. apply Hagree. by apply list_elem_of_further. }
  destruct (validateField host (get data2 (f_name field)) field) as [[e|]|err];
    [by apply IH|by apply IH|done].
Qed.

End ModelValidator.



(** Properties of the payload that the model does not declare play no
    part: two payloads with the same values under the declared names get
    the same answer. *)
Theorem validateModelData_reads_declared_only
    (host : Host) (data1 data2 : JsObject) (model : ModelDefinition) :
  (forall field, field ∈ m_fields model ->
     data1 !! f_name field = data2 !! f_name field) ->
  validateModelData host data1 model = validateModelData host data2 model.
Proof.
  intros Hagree. apply validate_fields_agree.
  intros field Hin. unfold get. by rewrite (Hagree field Hin).
Qed.

Lemma validateModelData_reads_declared_only_witness :
  validateModelData SmallHost.host
    {[ "name" := JStr "Widget"; "price" := JNum (of_Z 100) ]} Scenario.Product
  = validateModelData SmallHost.host Scenario.widget Scenario.Product.
Proof.
  apply (validateModelData_reads_declared_only SmallHost.host
           {[ "name" := JStr "Widget"; "price" := JNum (of_Z 100) ]}
           Scenario.widget Scenario.Product).
  intros field Hin.
  apply list_elem_of_In in Hin. simpl in Hin.
  destruct Hin as [<-|[<-|[]]]; reflexivity.
Defined.

Section MessageShape.
Context (host : Host) (field : ModelField).

Lemma check_names_field (failed : bool) (rest : string) :
  answers_with (names_field field) (check field failed (String " " rest)).
Proof.
  intros e. unfold check. destruct failed; [|discriminate].
  intros [= <-]. by exists rest.
Qed.

Lemma first_failure_answers (Q : string -> Prop)
    (checks : list (Completion (option string))) :
  Forall (answers_with Q) checks -> answers_with Q (first_failure checks).
Proof.
  induction 1 as [|c checks Hc _ IH]; simpl; [intros e; discriminate|].
  by destruct c as [[e|]|err].
Qed.

Lemma bind_answers (Q : string -> Prop) (A : Type) (c : Completion A)
    (k : A -> Completion (option string)) :
  (forall a, answers_with Q (k a)) -> answers_with Q (c ≫= k).
Proof. intros Hk. destruct c as [a|err]; [apply Hk|intros e; discriminate]. Qed.

Ltac names :=
  first [ apply check_names_field
        | intros ?; discriminate ].

Lemma spec_validateField_names_field (value : JsVal) :
  answers_with (names_field field) (spec_validateField host field value).
Proof.
  unfold spec_validateField.
  destruct (isEmpty value); [names|].
  assert (Hmin : forall num, answers_with (names_field field) (min_check host field num)).
  { intros num. unfold min_check. destruct (v_min _); names. }
  assert (Hmax : forall num, answers_with (names_field field) (max_check host field num)).
  { intros num. unfold max_check. destruct (v_max _); names. }
  assert (HminL : forall str, answers_with (names_field field) (minLength_check host field str)).
  { intros str. unfold minLength_check. destruct (v_minLength _); names. }
  assert (HmaxL : forall str, answers_with (names_field field) (maxLength_check host field str)).
  { intros str. unfold maxLength_check. destruct (v_maxLength _); names. }
  assert (Hpat : forall str, answers_with (names_field field) (pattern_check host field str)).
  { intros str. unfold pattern_check. destruct (v_pattern _) as [p|]; [|names].
    destruct (String.eqb p ""); [names|].
    destruct (RegExp_new host p); names. }
  destruct (f_type field);
    try (apply bind_answers; intros coerced);
    apply first_failure_answers;
    repeat (constructor; [first [apply Hmin|apply Hmax|apply HminL|apply HmaxL
                                |apply Hpat|names]|]);
    constructor.
Qed.

End MessageShape.

(** Every message of the field validator starts with the label of the
    field, or with its name when the label is missing or empty, followed
    by a space. *)
Theorem validateField_message_names_field
    (host : Host) (value : JsVal) (field : ModelField) (e : string) :
  validateField host value field = Normal (Some e) ->
  exists rest,
    e = (if truthy_string (f_label field) then default "" (f_label field)
         else f_name field) +:+ String " " rest.
Proof.
  rewrite validateField_refines. apply spec_validateField_names_field.
Qed.

Lemma validateField_message_names_field_witness :
  exists rest, "name is required" = "name" +:+ String " " rest.
Proof.
  apply (validateField_message_names_field SmallHost.host JNull
           (Scenario.field "name" TString true) "name is required").
  reflexivity.
Defined.

(** The field validator reads only the constraints of the field's type:
    [min] and [max] on a number, [minLength], [maxLength] and [pattern] on
    a string, an email or a URL, and none but [required] on a date or a
    boolean; whatever else the validation block declares changes no
    answer. *)
Theorem validateField_reads_constraints_of_type
    (host : Host) (value : JsVal) (field : ModelField) :
  validateField host value field
  = validateField host value
      (with_validation field
         (constraints_read (f_type field)
            (default no_validation (f_validation field)))).
Proof.
  unfold validateField, isRequired, with_validation, constraints_read, display,
    number_checks, string_checks, email_check, url_check, date_check,
    boolean_check.
  destruct field as [name type validation label required]. simpl.
  destruct type; reflexivity.
Qed.

Section Email.

Lemma split_at_sign_Some (s l d : list ascii) :
  split_at_sign s = Some (l, d) <->
  s = (l ++ "@"%char :: d)%list /\ forallb (fun c => negb (Ascii.eqb c "@")) l = true.
Proof.
  revert l. induction s as [|c s IH]; intros l; simpl.
  - split; [discriminate|]. intros [Hs _]. by destruct l.
  - destruct (Ascii.eqb c "@") eqn:Hc.
    + apply Ascii.eqb_eq in Hc. subst c. split.
      * by intros [= <- <-].
      * intros [Hs Hl]. destruct l as [|c l]; simpl in *.
        -- by injection Hs as ->.
        -- injection Hs as <- _. discriminate Hl.
    + destruct (split_at_sign s) as [[l' d']|] eqn:Hsplit.
      * split.
        -- intros [= <- <-]. destruct (proj1 (IH l') eq_refl) as [-> Hl'].
           simpl. by rewrite Hc.
        -- intros [Hs Hl]. destruct l as [|c0 l]; simpl in *.
           ++ injection Hs as -> _. by rewrite Ascii.eqb_refl in Hc.
           ++ injection Hs as <- Hs. apply andb_true_iff in Hl as [_ Hl].
              pose proof (proj2 (IH l) (conj Hs Hl)) as Heq.
              by injection Heq as <- <-.
      * split; [discriminate|]. intros [Hs Hl].
        destruct l as [|c0 l]; simpl in *.
        -- injection Hs as -> _. by rewrite Ascii.eqb_refl in Hc.
        -- injection Hs as <- Hs. apply andb_true_iff in Hl as [_ Hl].
           pose proof (proj2 (IH l) (conj Hs Hl)) as Heq. discriminate Heq.
Qed.

Lemma inner_dot (tl : list ascii) :
  existsb (fun c => Ascii.eqb c ".") (removelast tl) = true
  <-> exists b c, tl = (b ++ "."%char :: c)%list /\ c <> [].
Proof.
  induction tl as [|x tl IH]; simpl.
  - split; [discriminate|]. intros (b & c & Htl & _). by destruct b.
  - destruct tl as [|y tl]; simpl in *.
    + split; [discriminate|]. intros (b & c & Htl & Hc).
      destruct b as [|? [|? ?]]; simpl in Htl; [|done|done].
      injection Htl as _ <-. done.
    + rewrite orb_true_iff, IH. split.
      * intros [Hx|(b & c & Htl & Hc)].
        -- apply Ascii.eqb_eq in Hx. subst x. by exists [], (y :: tl).
        -- exists (x :: b), c. split; [|done]. simpl. by rewrite Htl.
      * intros (b & c & Htl & Hc). destruct b as [|x0 b]; simpl in Htl.
        -- injection Htl as -> _. left. apply Ascii.eqb_refl.
        -- injection Htl as -> Htl. right. by exists b, c.
Qed.

Lemma email_char_not_sign (l : list ascii) :
  forallb email_char l = true ->
  forallb (fun c => negb (Ascii.eqb c "@")) l = true.
Proof.
  rewrite !forallb_forall. intros Hl c Hin.
  by destruct (andb_prop _ _ (Hl c Hin)).
Qed.

End Email.

(** The email test accepts exactly the strings [local@domain.tld]: a
    non-empty local part, an [@], and a domain with a dot that has at
    least one character before it and one after it, where no character
    besides that [@] is white space or an [@]. *)
Theorem emailRegex_test_shape (s : string) :
  emailRegex_test s = true
  <-> exists local domain tld : list ascii,
        list_ascii_of_string s
        = (local ++ "@"%char :: domain ++ "."%char :: tld)%list
        /\ local <> [] /\ domain <> [] /\ tld <> []
        /\ forallb email_char (local ++ domain ++ tld)%list = true.
Proof.
  unfold emailRegex_test. split.
  - destruct (split_at_sign (list_ascii_of_string s)) as [[l d]|] eqn:Hsplit;
      [|discriminate].
    apply split_at_sign_Some in Hsplit as [Hs _].
    rewrite !andb_true_iff. intros [[[Hl Hcl] Hcd] Hdot].
    destruct d as [|x tl]; [discriminate|].
    apply inner_dot in Hdot as (b & c & -> & Hc).
    exists l, (x :: b), c. split; [by rewrite Hs|].
    split; [by destruct l|]. split; [done|]. split; [done|].
    change (x :: b ++ "."%char :: c)%list with ((x :: b) ++ "."%char :: c)%list in Hcd.
    rewrite forallb_app in Hcd. apply andb_true_iff in Hcd as [Hb Hc'].
    change (forallb email_char ("."%char :: c)) with (forallb email_char c) in Hc'.
    by rewrite !forallb_app, Hcl, Hb, Hc'.
  - intros (l & b & c & Hs & Hl & Hb & Hc & Hchars).
    rewrite !forallb_app, !andb_true_iff in Hchars.
    destruct Hchars as (Hcl & Hcb & Hcc).
    assert (Hsplit : split_at_sign (list_ascii_of_string s)
                     = Some (l, (b ++ "."%char :: c)%list)).
    { apply split_at_sign_Some. split; [done|]. by apply email_char_not_sign. }
    rewrite Hsplit. rewrite !andb_true_iff. repeat split.
    + by destruct l.
    + done.
    + rewrite forallb_app, Hcb. simpl. by rewrite Hcc.
    + destruct b as [|x b]; [done|]. simpl. apply inner_dot. by exists b, c.
Qed.

(** On a boolean field a value that is not empty passes exactly when it is
    [true], [false], ["true"] or ["false"]; [false] is not an empty value,
    so a required boolean field accepts it. *)
Theorem validateField_boolean
    (host : Host) (value : JsVal) (field : ModelField) :
  f_type field = TBoolean ->
  isEmpty value = false ->
  (validateField host value field = Normal None
   <-> (exists b, value = JBool b) \/ value = JStr "true" \/ value = JStr "false")
  /\ (validateField host value field = Normal None
      \/ validateField host value field
         = Normal (Some (display field +:+ " must be a boolean value")))
  /\ validateField host (JBool false) field = Normal None.
Proof.
  intros Htype Hvalue.
  assert (Hfalse : validateField host (JBool false) field = Normal None).
  { rewrite validateField_refines. unfold spec_validateField. simpl.
    by rewrite Htype. }
  rewrite validateField_refines. unfold spec_validateField.
  rewrite Hvalue, Htype. unfold first_failure, boolean_format, check. simpl.
  split; [|split; [|done]].
  - destruct value as [| |b|n|s|l|o|k]; simpl;
      try (split; [discriminate|intros [[? ?]|[?|?]]; discriminate]).
    + split; [intros _; left; by eexists|done].
    + destruct (String.eqb s "true") eqn:Htrue; simpl.
      * apply String.eqb_eq in Htrue. subst s. split; [by right; left|done].
      * destruct (String.eqb s "false") eqn:Hf; simpl.
        -- apply String.eqb_eq in Hf. subst s. split; [by right; right|done].
        -- apply String.eqb_neq in Htrue, Hf.
           split; [discriminate|]. intros [[? ?]|[[= ?]|[= ?]]]; done.
  - destruct (negb _); [by right|by left].
Qed.

Lemma validateField_boolean_witness :
  validateField SmallHost.host (JBool false) (Scenario.field "inStock" TBoolean true)
  = Normal None.
Proof.
  apply (validateField_boolean SmallHost.host (JStr "true")
           (Scenario.field "inStock" TBoolean true)); reflexivity.
Defined.

(* ===================================================================== *)
(** * More on the handlers *)
(* ===================================================================== *)

Section HandlerLaws.

(** The ownership condition shared by the item handlers, and the test of
    the list filter. *)
Lemma owner_condition_filter (user : User) (model : ModelDefinition)
    (record : DataRecord) :
  negb (truthy_string (m_ownerField model)
        && negb (checkOwnership (user_id user)
                   (get record (default "" (m_ownerField model)))
                   (user_role user)))
  = if truthy_string (m_ownerField model)
       && negb (bool_decide (user_role user = Admin))
    then negb (truthy (get record (default "" (m_ownerField model))))
         || strict_eq_string (get record (default "" (m_ownerField model)))
              (user_id user)
    else true.
Proof.
  rewrite checkOwnership_unfold.
  destruct (truthy_string (m_ownerField model)); simpl; [|done].
  destruct (bool_decide (user_role user = Admin)); simpl; [done|].
  by rewrite negb_involutive.
Qed.



End HandlerLaws.

(** A requester allowed to read a model is served a record by its
    identifier exactly when the record is in the list the same requester
    is given, each with status 200. *)
Theorem GET_item_agrees_with_list
    (srv : Server) (user : User) (modelName : string) (model : ModelDefinition) :
  unique_ids (dataStore srv) ->
  getModel srv modelName = Some model ->
  canPerformAction (user_role user) Read (m_permissions model) = true ->
  status (Collection.GET srv (Some user) modelName) = 200
  /\ forall record,
       record ∈ listed (Collection.GET srv (Some user) modelName)
       <-> exists id,
             Item.GET srv (Some user) modelName id
             = json (RecordBody (Some record)) 200.
Proof.
  intros Hunique Hmodel Hread.
  unfold Collection.GET, Item.GET. rewrite Hmodel, Hread. simpl.
  split; [done|]. intros record.
  assert (Hitem : forall id,
            match getRecordById (dataStore srv) modelName id with
            | Some r =>
                if truthy_string (m_ownerField model)
                   && negb (checkOwnership (user_id user)
                              (get r (default "" (m_ownerField model)))
                              (user_role user))
                then json (ErrorBody "Permission denied") 403
                else json (RecordBody (Some r)) 200
            | None => json (ErrorBody "Record not found") 404
            end = json (RecordBody (Some record)) 200
            <-> getRecordById (dataStore srv) modelName id = Some record
                /\ negb (truthy_string (m_ownerField model)
                         && negb (checkOwnership (user_id user)
                                    (get record (default "" (m_ownerField model)))
                                    (user_role user))) = true).
  { intros id. destruct (getRecordById _ _ _) as [r|]; [|by split; [|intros [? _]]].
    split.
    - destruct (_ && _) eqn:Hcond; [done|]. intros [= ->]. by rewrite Hcond.
    - intros [[= ->] Hcond]. apply negb_true_iff in Hcond. by rewrite Hcond. }
  assert (Hstored : record ∈ getModelData (dataStore srv) modelName
                    <-> exists id, getRecordById (dataStore srv) modelName id
                                   = Some record).
  { unfold getModelData, getRecordById.
    destruct (dataStore srv !! modelName) as [modelStore|] eqn:Hstore.
    - apply JsMap_values_get. by apply (Hunique modelName).
    - split; [by intros ?%elem_of_nil|by intros [? ?]]. }
  setoid_rewrite Hitem. setoid_rewrite owner_condition_filter.
  destruct (truthy_string (m_ownerField model)
            && negb (bool_decide (user_role user = Admin))); simpl.
  - unfold listed, json. cbn [body].
    rewrite list_elem_of_In, filter_In, <- list_elem_of_In, Hstored.
    split; [intros [[id Hid] Hkeep]; by exists id|intros [id [Hid Hkeep]]; eauto].
  - unfold listed, json. cbn [body]. rewrite Hstored. split; [intros [id Hid]; by exists id|intros [id [Hid _]]; eauto].
Qed.

Lemma GET_item_agrees_with_list_witness :
  Scenario.widget
    ∈ listed (Collection.GET (Scenario.server [("r1", Scenario.widget)])
                (Some Scenario.m1) "Product")
  <-> exists id,
        Item.GET (Scenario.server [("r1", Scenario.widget)]) (Some Scenario.m1)
          "Product" id
        = json (RecordBody (Some Scenario.widget)) 200.
Proof.
  apply (GET_item_agrees_with_list (Scenario.server [("r1", Scenario.widget)])
           Scenario.m1 "Product" Scenario.Product).
  - intros modelName modelStore Hstore. simpl in Hstore.
    destruct (decide (modelName = "Product")) as [->|Hne].
    + rewrite lookup_singleton_eq in Hstore. injection Hstore as <-.
      simpl. apply NoDup_singleton.
    + by rewrite lookup_singleton_ne in Hstore.
  - reflexivity.
  - reflexivity.
Defined.

(** [DELETE] never answers 500 and never touches the model definitions.
    Unless it answers 200 the server is as before.  When it answers 200,
    the requester is authenticated, is allowed [delete] by the model's
    rule and passes the ownership check on the stored record (when the
    model has an owner field); the record is then gone and no other
    record is touched. *)
Theorem DELETE_outcome
    (srv : Server) (user : option User) (modelName id : string) :
  fst (snd (Item.DELETE srv user modelName id)) <> 500
  /\ models (fst (Item.DELETE srv user modelName id)) = models srv
  /\ (fst (snd (Item.DELETE srv user modelName id)) <> 200 ->
      fst (Item.DELETE srv user modelName id) = srv)
  /\ (fst (snd (Item.DELETE srv user modelName id)) = 200 ->
      (exists requester model existing,
          user = Some requester
          /\ getModel srv modelName = Some model
          /\ canPerformAction (user_role requester) Delete (m_permissions model) = true
          /\ getRecordById (dataStore srv) modelName id = Some existing
          /\ (truthy_string (m_ownerField model) = true ->
              checkOwnership (user_id requester)
                (get existing (default "" (m_ownerField model)))
                (user_role requester) = true))
      /\ getRecordById (dataStore (fst (Item.DELETE srv user modelName id)))
           modelName id = None
      /\ (forall m i, m <> modelName \/ i <> id ->
            getRecordById (dataStore (fst (Item.DELETE srv user modelName id))) m i
            = getRecordById (dataStore srv) m i)).
Proof.
  unfold Item.DELETE.
  destruct user as [u|]; [|by repeat split].
  destruct (getModel srv modelName) as [model|]; [|by repeat split].
  destruct (canPerformAction _ _ _) eqn:Hcan; simpl; [|by repeat split].
  destruct (getRecordById (dataStore srv) modelName id) as [existing|] eqn:Hget;
    [|by repeat split].
  destruct (truthy_string (m_ownerField model)
            && negb (checkOwnership (user_id u)
                       (get existing (default "" (m_ownerField model)))
                       (user_role u))) eqn:Hown; [by repeat split|].
  pose proof (deleteRecord_laws (dataStore srv) modelName id)
    as (Hdeleted & Hgone & Hframe & _).
  rewrite Hget in Hdeleted.
  destruct (deleteRecord (dataStore srv) modelName id) as [store deleted].
  simpl in *.
  assert (deleted = true) as ->.
  { rewrite Hdeleted. first [reflexivity|apply bool_decide_eq_true; by eexists]. }
  simpl. split; [done|]. split; [done|]. split; [done|].
  intros _. split; [|by split].
  exists u, model, existing. repeat split; try done.
  intros Howner. rewrite Howner in Hown. simpl in Hown.
  by apply negb_false_iff in Hown.
Qed.


Lemma POST_laws
    (host : Host) (srv : Server) (user : option User) (modelName : string)
    (data : JsObject) (id : string) :
  models (fst (Collection.POST host srv user modelName data id)) = models srv
  /\ (status (snd (Collection.POST host srv user modelName data id)) <> 201 ->
      fst (Collection.POST host srv user modelName data id) = srv)
  /\ (status (snd (Collection.POST host srv user modelName data id)) = 201 ->
      exists requester model record,
        user = Some requester
        /\ getModel srv modelName = Some model
        /\ canPerformAction (user_role requester) Create (m_permissions model) = true
        /\ validateModelData host data model = Normal ∅
        /\ body (snd (Collection.POST host srv user modelName data id))
           = RecordBody (Some record)
        /\ getRecordById (dataStore (fst (Collection.POST host srv user modelName data id)))
             modelName id = Some record
        /\ (truthy_string (m_ownerField model) = true ->
            m_ownerField model <> Some "__proto__" \/ is_Some (data !! "__proto__") ->
            record !! default "" (m_ownerField model)
            = Some (JStr (user_id requester)))
        /\ (forall k, k <> "id" ->
              m_ownerField model <> Some k
              \/ (k = "__proto__" /\ data !! "__proto__" = None) ->
              record !! k = data !! k)
        /\ (forall m i, m <> modelName \/ i <> id ->
              getRecordById
                (dataStore (fst (Collection.POST host srv user modelName data id))) m i
              = getRecordById (dataStore srv) m i)).
Proof.
  unfold Collection.POST.
  destruct user as [u|]; [|by repeat split].
  destruct (getModel srv modelName) as [model|]; [|by repeat split].
  destruct (canPerformAction _ _ _) eqn:Hcan; cbn [negb]; [|by repeat split].
  destruct (validateModelData host data model) as [errors|err] eqn:Hvalid;
    [|by repeat split].
  destruct (negb (Nat.eqb (size errors) 0)) eqn:Hsize; [by repeat split|].
  assert (errors = ∅) as ->.
  { apply negb_false_iff, Nat.eqb_eq in Hsize. by apply map_size_empty_iff. }
  cbv zeta.
  set (data' := if truthy_string (m_ownerField model)
                then assign data (default "" (m_ownerField model)) (JStr (user_id u))
                else data).
  pose proof (createRecord_laws (dataStore srv) modelName id data')
    as (Hfound & Hid & Hprops & Hframe & _).
  destruct (createRecord (dataStore srv) modelName id data') as [store record].
  simpl in *. split; [done|]. split; [done|]. intros _.
  exists u, model, record.
  split; [done|]. split; [done|]. split; [done|]. split; [done|].
  split; [done|]. split; [done|]. split; [|split; [|done]].
  - intros Howner Hplain. subst data'. rewrite Howner in *.
    assert (Hset : assign data (default "" (m_ownerField model)) (JStr (user_id u))
                   !! default "" (m_ownerField model) = Some (JStr (user_id u))).
    { apply assign_lookup_eq.
      destruct (decide (default "" (m_ownerField model) = "__proto__")) as [Heq|Hne];
        [|by left].
      right. rewrite Heq. destruct Hplain as [Hplain|Hown]; [|done].
      exfalso. apply Hplain.
      destruct (m_ownerField model); simpl in Heq, Howner; [by subst|done]. }
    destruct (decide (default "" (m_ownerField model) = "id")) as [Heq|Hne].
    + rewrite Heq in *. rewrite Hid. by rewrite Hset.
    + by rewrite (Hprops _ Hne).
  - intros k Hk Hnot. rewrite (Hprops _ Hk). subst data'.
    destruct (truthy_string (m_ownerField model)) eqn:Howner; [|done].
    destruct (decide (default "" (m_ownerField model) = k)) as [Heq|Hne].
    + destruct Hnot as [Hnot|[-> Hnone]].
      * exfalso. apply Hnot.
        destruct (m_ownerField model); simpl in Heq, Howner; [by subst|done].
      * by rewrite Heq, assign_proto.
    + by apply assign_lookup_ne.
Qed.

(** [POST] never touches the model definitions, and unless it answers 201
    the server is as before.  When it answers 201, the requester is
    authenticated and allowed [create], the payload as sent is valid, and
    the answer is the record stored under the drawn identifier: it carries
    the requester's id under the owner field of the model whatever the
    payload said there, the payload's value under every other name but
    [id], and no other record is touched.  An owner field named
    [__proto__] is the exception: the requester's id is written only over
    a property of that name that the payload has, and a payload without
    one is stored as sent. *)
Theorem POST_outcome
    (host : Host) (srv : Server) (user : option User) (modelName : string)
    (data : JsObject) (id : string) :
  models (fst (Collection.POST host srv user modelName data id)) = models srv
  /\ (status (snd (Collection.POST host srv user modelName data id)) <> 201 ->
      fst (Collection.POST host srv user modelName data id) = srv)
  /\ (status (snd (Collection.POST host srv user modelName data id)) = 201 ->
      exists requester model record,
        user = Some requester
        /\ getModel srv modelName = Some model
        /\ canPerformAction (user_role requester) Create (m_permissions model) = true
        /\ validateModelData host data model = Normal ∅
        /\ body (snd (Collection.POST host srv user modelName data id))
           = RecordBody (Some record)
        /\ getRecordById (dataStore (fst (Collection.POST host srv user modelName data id)))
             modelName id = Some record
        /\ (truthy_string (m_ownerField model) = true ->
            m_ownerField model <> Some "__proto__" \/ is_Some (data !! "__proto__") ->
            record !! default "" (m_ownerField model)
            = Some (JStr (user_id requester)))
        /\ (forall k, k <> "id" ->
              m_ownerField model <> Some k
              \/ (k = "__proto__" /\ data !! "__proto__" = None) ->
              record !! k = data !! k)
        /\ (forall m i, m <> modelName \/ i <> id ->
              getRecordById
                (dataStore (fst (Collection.POST host srv user modelName data id))) m i
              = getRecordById (dataStore srv) m i)).
Proof. apply POST_laws. Qed.

Lemma DELETE_outcome_witness :
  getRecordById
    (dataStore (fst (Item.DELETE (Scenario.server [("r1", Scenario.widget)])
                       (Some Scenario.a1) "Product" "r1")))
    "Product" "r1" = None.
Proof.
  destruct (DELETE_outcome (Scenario.server [("r1", Scenario.widget)])
              (Some Scenario.a1) "Product" "r1") as (_ & _ & _ & Hdone).
  destruct (Hdone eq_refl) as (_ & Hgone & _). exact Hgone.
Defined.


Lemma POST_outcome_witness :
  exists record,
    getRecordById
      (dataStore (fst (Collection.POST SmallHost.host (Scenario.server [])
                         (Some Scenario.m1) "Product"
                         {[ "name" := JStr "Widget"; "price" := JNum (of_Z 100);
                            "ownerId" := JStr "a1" ]} "r1")))
      "Product" "r1" = Some record
    /\ record !! "ownerId" = Some (JStr "m1").
Proof.
  destruct (POST_outcome SmallHost.host (Scenario.server [])
              (Some Scenario.m1) "Product"
              {[ "name" := JStr "Widget"; "price" := JNum (of_Z 100);
                 "ownerId" := JStr "a1" ]} "r1")
    as (_ & _ & Hdone).
  destruct (Hdone eq_refl)
    as (requester & model & record & Huser & Hmodel & _ & _ & _ & Hfound & Howner & _).
  exists record. split; [exact Hfound|].
  injection Huser as <-. injection Hmodel as <-.
  apply (Howner eq_refl). left. discriminate.
Defined.

(** Row-level ownership, end to end: on a model with an owner field of a
    name other than [__proto__], the record a requester with a non-empty
    id has just created is served by its identifier (200) to an Admin and
    to a requester with the creator's id, and is refused (403) to every
    other requester, all of them being allowed to read the model. *)
Theorem created_record_visibility
    (host : Host) (srv : Server) (creator reader : User) (modelName : string)
    (data : JsObject) (id : string) (model : ModelDefinition) :
  getModel srv modelName = Some model ->
  truthy_string (m_ownerField model) = true ->
  m_ownerField model <> Some "__proto__" ->
  user_id creator <> "" ->
  status (snd (Collection.POST host srv (Some creator) modelName data id)) = 201 ->
  canPerformAction (user_role reader) Read (m_permissions model) = true ->
  status (Item.GET (fst (Collection.POST host srv (Some creator) modelName data id))
            (Some reader) modelName id)
  = if bool_decide (user_role reader = Admin \/ user_id reader = user_id creator)
    then 200 else 403.
Proof.
  intros Hmodel Howner Hplain Hcreator Hcreated Hread.
  destruct (POST_laws host srv (Some creator) modelName data id)
    as (Hmodels & _ & Hdone).
  destruct (Hdone Hcreated)
    as (requester & model' & record & Huser & Hmodel' & _ & _ & _ & Hfound & Hown & _).
  injection Huser as <-. rewrite Hmodel in Hmodel'. injection Hmodel' as <-.
  specialize (Hown Howner (or_introl Hplain)).
  unfold Item.GET, getModel. rewrite Hmodels. fold (getModel srv modelName).
  rewrite Hmodel, Hread, Hfound, Howner. simpl.
  unfold get. rewrite Hown. rewrite checkOwnership_unfold. simpl.
  apply String.eqb_neq in Hcreator. rewrite Hcreator. simpl.
  destruct (decide (user_role reader = Admin)) as [Hadmin|Hother].
  - rewrite (bool_decide_eq_true_2 _ Hadmin). simpl.
    rewrite bool_decide_eq_true_2; [done|by left].
  - rewrite (bool_decide_eq_false_2 _ Hother). simpl.
    destruct (String.eqb (user_id creator) (user_id reader)) eqn:Hid; simpl.
    + apply String.eqb_eq in Hid. rewrite bool_decide_eq_true_2; [done|by right].
    + apply String.eqb_neq in Hid.
      rewrite bool_decide_eq_false_2; [done|]. intros [?|?]; congruence.
Qed.

Lemma created_record_visibility_witness :
  status (Item.GET
            (fst (Collection.POST SmallHost.host (Scenario.server [])
                    (Some Scenario.m1) "Product"
                    {[ "name" := JStr "Widget"; "price" := JNum (of_Z 100) ]} "r1"))
            (Some Scenario.m2) "Product" "r1")
  = 403.
Proof.
  apply (created_record_visibility SmallHost.host (Scenario.server [])
           Scenario.m1 Scenario.m2 "Product"
           {[ "name" := JStr "Widget"; "price" := JNum (of_Z 100) ]} "r1"
           Scenario.Product).
  - reflexivity.
  - reflexivity.
  - discriminate.
  - discriminate.
  - reflexivity.
  - reflexivity.
Defined.

(** Creating a model never touches the records, and unless the answer is
    200 the server is as before.  The answer is 200 only for an Admin who
    sends an object with a string for name and an array of fields; the
    definition is then found under its name, with the permissions sent or,
    without any, create, update and delete for Admin only and read for
    every role.  For an Admin the answer is 500 exactly when the body is
    not JSON or is [null], or is an object with an array of fields whose
    name is truthy without being a string, or is a string of white space
    only; and 400 exactly when the body is another JSON value that is not
    an object, or an object whose name is falsy or whose fields are not
    an array. *)
Theorem Models_POST_outcome
    (srv : Server) (user : option User) (body : Models.RequestBody) :
  dataStore (fst (Models.POST srv user body)) = dataStore srv
  /\ (fst (snd (Models.POST srv user body)) <> 200 ->
      fst (Models.POST srv user body) = srv)
  /\ (fst (snd (Models.POST srv user body)) = 200 ->
      exists requester modelData name fields model,
        user = Some requester /\ user_role requester = Admin
        /\ body = Models.JSON_object modelData
        /\ Models.md_name modelData = JStr name
        /\ Models.md_fields modelData = Some fields
        /\ model = {| m_name := name; m_fields := fields;
                      m_ownerField := Models.md_ownerField modelData;
                      m_permissions :=
                        Some (default Models.default_permissions
                                (Models.md_permissions modelData)) |}
        /\ snd (snd (Models.POST srv user body)) = Models.ModelCreated model
        /\ getModel (fst (Models.POST srv user body)) name = Some model
        /\ (forall other, other <> name ->
              getModel (fst (Models.POST srv user body)) other
              = getModel srv other))
  /\ (fst (snd (Models.POST srv user body)) = 500
      <-> exists requester,
            user = Some requester /\ user_role requester = Admin
            /\ (body = Models.NotJSON \/ body = Models.JSON_null
                \/ exists modelData,
                     body = Models.JSON_object modelData
                     /\ truthy (Models.md_name modelData) = true
                     /\ is_Some (Models.md_fields modelData)
                     /\ forall name,
                          Models.md_name modelData = JStr name ->
                          forallb is_space (list_ascii_of_string name) = true))
  /\ (fst (snd (Models.POST srv user body)) = 400
      <-> exists requester,
            user = Some requester /\ user_role requester = Admin
            /\ (body = Models.JSON_scalar_or_array
                \/ exists modelData,
                     body = Models.JSON_object modelData
                     /\ (truthy (Models.md_name modelData) = false
                         \/ Models.md_fields modelData = None)))
  /\ (forall role action,
        canPerformAction role action (Some Models.default_permissions) = true
        <-> action = Read \/ role = Admin).
Proof.
  assert (Hdefault : forall role action,
            canPerformAction role action (Some Models.default_permissions) = true
            <-> action = Read \/ role = Admin).
  { intros role action.
    destruct role, action; simpl; split; intros Hcase; try done;
      try (by left); try (by right); by destruct Hcase. }
  unfold Models.POST.
  destruct user as [u|].
  2: { split; [done|]. split; [done|]. split; [done|].
       split; [by split; [|intros (? & ? & _)]|].
       split; [by split; [|intros (? & ? & _)]|done]. }
  destruct (decide (user_role u = Admin)) as [Hadmin|Hother].
  2: { rewrite (bool_decide_eq_false_2 _ Hother). cbn [negb].
       split; [done|]. split; [done|]. split; [done|].
       split; [by split; [|intros (? & [= <-] & ? & _)]|].
       split; [by split; [|intros (? & [= <-] & ? & _)]|done]. }
  rewrite (bool_decide_eq_true_2 _ Hadmin). cbn [negb].
  destruct body as [| | |modelData].
  - split; [done|]. split; [done|]. split; [done|].
    split; [split; [intros _; exists u; by repeat split; try left|done]|].
    split; [|done]. split; [done|].
    intros (? & _ & _ & [?|(? & ? & _)]); discriminate.
  - split; [done|]. split; [done|]. split; [done|].
    split; [split; [intros _; exists u; repeat split; try done; by right; left|done]|].
    split; [|done]. split; [done|].
    intros (? & _ & _ & [?|(? & ? & _)]); discriminate.
  - split; [done|]. split; [done|]. split; [done|].
    split; [split; [done|]|].
    { intros (? & _ & _ & [?|[?|(? & ? & _)]]); discriminate. }
    split; [|done]. split; [|done]. intros _. exists u. repeat split; try done.
    by left.
  - destruct (truthy (Models.md_name modelData)) eqn:Hname; cbn [negb orb].
    2: { split; [done|]. split; [done|]. split; [done|].
         split; [split; [done|]|].
         { intros (? & _ & _ & [?|[?|(md & [= <-] & Htruthy & _)]]);
             try discriminate. congruence. }
         split; [|done]. split; [|done]. intros _. exists u. repeat split; try done.
         right. exists modelData. split; [done|]. by left. }
    destruct (Models.md_fields modelData) as [fields|] eqn:Hfields.
    2: { rewrite bool_decide_eq_false_2 by (by intros [? ?]). cbn [negb].
         split; [done|]. split; [done|]. split; [done|].
         split; [split; [done|]|].
         { intros (? & _ & _ & [?|[?|(md & [= <-] & _ & [? Hsome] & _)]]);
             try discriminate. congruence. }
         split; [|done]. split; [|done]. intros _. exists u. repeat split; try done.
         right. exists modelData. split; [done|]. by right. }
    rewrite bool_decide_eq_true_2 by (by eexists). cbn [negb].
    assert (Hnot400 : ~ (exists requester,
              Some u = Some requester /\ user_role requester = Admin
              /\ (Models.JSON_object modelData = Models.JSON_scalar_or_array
                  \/ exists modelData',
                       Models.JSON_object modelData = Models.JSON_object modelData'
                       /\ (truthy (Models.md_name modelData') = false
                           \/ Models.md_fields modelData' = None)))).
    { intros (? & _ & _ & [?|(md & [= <-] & [?|?])]); congruence. }
    assert (Hthrown : forall P : Prop,
              (forall name, Models.md_name modelData = JStr name ->
                 forallb is_space (list_ascii_of_string name) = true) ->
              dataStore srv = dataStore srv
              /\ (500 <> 200 -> srv = srv)
              /\ (500 = 200 -> P)
              /\ (500 = 500
                  <-> exists requester,
                        Some u = Some requester /\ user_role requester = Admin
                        /\ (Models.JSON_object modelData = Models.NotJSON
                            \/ Models.JSON_object modelData = Models.JSON_null
                            \/ exists modelData',
                                 Models.JSON_object modelData
                                 = Models.JSON_object modelData'
                                 /\ truthy (Models.md_name modelData') = true
                                 /\ is_Some (Models.md_fields modelData')
                                 /\ forall name,
                                      Models.md_name modelData' = JStr name ->
                                      forallb is_space (list_ascii_of_string name)
                                      = true))
              /\ (500 = 400
                  <-> exists requester,
                        Some u = Some requester /\ user_role requester = Admin
                        /\ (Models.JSON_object modelData = Models.JSON_scalar_or_array
                            \/ exists modelData',
                                 Models.JSON_object modelData
                                 = Models.JSON_object modelData'
                                 /\ (truthy (Models.md_name modelData') = false
                                     \/ Models.md_fields modelData' = None)))
              /\ (forall role action,
                    canPerformAction role action (Some Models.default_permissions) = true
                    <-> action = Read \/ role = Admin)).
    { intros P Hspaces. split; [done|]. split; [done|]. split; [done|].
      split; [|split; [by split|done]].
      split; [|done]. intros _. exists u. split; [done|]. split; [done|].
      right. right. exists modelData. rewrite Hfields. by repeat split. }
    change (default [] (Some fields)) with fields.
    destruct (Models.md_name modelData) as [| |b|n|name|l|o|k] eqn:Hmd;
      try (apply Hthrown; intros; discriminate).
    set (model := {| m_name := name; m_fields := fields;
                     m_ownerField := Models.md_ownerField modelData;
                     m_permissions :=
                       Some (default Models.default_permissions
                               (Models.md_permissions modelData)) |}).
    pose proof (saveModel_laws (models srv) model name)
      as (Hthrows & Hsaves & _).
    change (m_name model) with name in Hthrows, Hsaves.
    destruct (forallb is_space (list_ascii_of_string name)) eqn:Hspaces.
    + rewrite (proj2 Hthrows eq_refl).
      apply Hthrown. by intros name' [= <-].
    + destruct (Hsaves eq_refl) as (saved & -> & Hfound & Hothers & _). simpl.
      split; [done|]. split; [done|]. split; [|split; [|split; [by split|done]]].
      * intros _. exists u, modelData, name, fields, model. by rewrite Hfields.
      * split; [done|].
        intros (? & _ & _ & [?|[?|(md & [= <-] & _ & _ & Hall)]]); try discriminate.
        specialize (Hall name Hmd). congruence.
Qed.

Lemma Models_POST_outcome_witness :
  exists requester modelData name fields model,
    Some Scenario.a1 = Some requester /\ user_role requester = Admin
    /\ Models.JSON_object
         {| Models.md_name := JStr "Task";
            Models.md_fields := Some [Scenario.field "title" TString true];
            Models.md_ownerField := None;
            Models.md_permissions := None |}
       = Models.JSON_object modelData
    /\ Models.md_name modelData = JStr name
    /\ Models.md_fields modelData = Some fields
    /\ model = {| m_name := name; m_fields := fields;
                  m_ownerField := Models.md_ownerField modelData;
                  m_permissions :=
                    Some (default Models.default_permissions
                            (Models.md_permissions modelData)) |}
    /\ snd (snd (Models.POST (Scenario.server []) (Some Scenario.a1)
                   (Models.JSON_object
                      {| Models.md_name := JStr "Task";
                         Models.md_fields := Some [Scenario.field "title" TString true];
                         Models.md_ownerField := None;
                         Models.md_permissions := None |})))
       = Models.ModelCreated model
    /\ getModel (fst (Models.POST (Scenario.server []) (Some Scenario.a1)
                        (Models.JSON_object
                           {| Models.md_name := JStr "Task";
                              Models.md_fields :=
                                Some [Scenario.field "title" TString true];
                              Models.md_ownerField := None;
                              Models.md_permissions := None |}))) name
       = Some model
    /\ (forall other, other <> name ->
          getModel (fst (Models.POST (Scenario.server []) (Some Scenario.a1)
                           (Models.JSON_object
                              {| Models.md_name := JStr "Task";
                                 Models.md_fields :=
                                   Some [Scenario.field "title" TString true];
                                 Models.md_ownerField := None;
                                 Models.md_permissions := None |}))) other
          = getModel (Scenario.server []) other).
Proof.
  apply (proj1 (proj2 (proj2
           (Models_POST_outcome (Scenario.server []) (Some Scenario.a1)
              (Models.JSON_object
                 {| Models.md_name := JStr "Task";
                    Models.md_fields := Some [Scenario.field "title" TString true];
                    Models.md_ownerField := None;
                    Models.md_permissions := None |}))))).
  reflexivity.
Defined.

(** A model named with white space only, or with a number, is refused
    with 500, not 400, and so is a body that is [null]; the server is
    left as it was.  A missing list of fields is a 400. *)
Example Models_POST_blank_name :
  Models.POST (Scenario.server []) (Some Scenario.a1)
    (Models.JSON_object
       {| Models.md_name := JStr "  "; Models.md_fields := Some [];
          Models.md_ownerField := None; Models.md_permissions := None |})
  = (Scenario.server [], (500, Models.ModelError "Internal server error"))
  /\ Models.POST (Scenario.server []) (Some Scenario.a1)
       (Models.JSON_object
          {| Models.md_name := JNum (of_Z 5); Models.md_fields := Some [];
             Models.md_ownerField := None; Models.md_permissions := None |})
     = (Scenario.server [], (500, Models.ModelError "Internal server error"))
  /\ Models.POST (Scenario.server []) (Some Scenario.a1) Models.JSON_null
     = (Scenario.server [], (500, Models.ModelError "Internal server error"))
  /\ Models.POST (Scenario.server []) (Some Scenario.a1)
       (Models.JSON_object
          {| Models.md_name := JStr "Task"; Models.md_fields := None;
             Models.md_ownerField := None; Models.md_permissions := None |})
     = (Scenario.server [], (400, Models.ModelError "Invalid model data")).
Proof. repeat split; reflexivity. Qed.

Section Coercion.
Context (host : Host).

Lemma ToString_primitive (value : JsVal) :
  primitive value = true -> exists str, ToString host value = Normal str.
Proof. destruct value; simpl; intros Hp; try discriminate Hp; by eexists. Qed.

Lemma ToNumber_primitive (value : JsVal) :
  primitive value = true -> exists num, ToNumber host value = Normal num.
Proof. destruct value; simpl; intros Hp; try discriminate Hp; by eexists. Qed.

Lemma check_normal (field : ModelField) (failed : bool) (message : string) :
  exists answer, check field failed message = Normal answer.
Proof. unfold check. destruct failed; by eexists. Qed.

Lemma first_failure_normal (checks : list (Completion (option string))) :
  Forall (fun c => exists answer, c = Normal answer) checks ->
  exists answer, first_failure checks = Normal answer.
Proof.
  induction 1 as [|c checks [answer ->] _ IH]; simpl; [by eexists|].
  destruct answer; [by eexists|done].
Qed.

End Coercion.

(** The field validator answers, without throwing, for every value that
    is not an array or an object, provided the pattern of the field, when
    it has a non-empty one, is a regular expression the host accepts. *)
Theorem validateField_answers_on_primitives
    (host : Host) (value : JsVal) (field : ModelField) :
  primitive value = true ->
  pattern_compiles host field ->
  exists answer, validateField host value field = Normal answer.
Proof.
  intros Hprimitive Hpattern.
  rewrite validateField_refines. unfold spec_validateField.
  destruct (isEmpty value); [apply check_normal|].
  destruct (ToString_primitive host value Hprimitive) as [str Hstr].
  destruct (ToNumber_primitive host value Hprimitive) as [num Hnum].
  assert (Hmin : exists answer, min_check host field num = Normal answer).
  { unfold min_check. destruct (v_min _); [apply check_normal|by eexists]. }
  assert (Hmax : exists answer, max_check host field num = Normal answer).
  { unfold max_check. destruct (v_max _); [apply check_normal|by eexists]. }
  assert (HminL : exists answer, minLength_check host field str = Normal answer).
  { unfold minLength_check. destruct (v_minLength _); [apply check_normal|by eexists]. }
  assert (HmaxL : exists answer, maxLength_check host field str = Normal answer).
  { unfold maxLength_check. destruct (v_maxLength _); [apply check_normal|by eexists]. }
  assert (Hpat : exists answer, pattern_check host field str = Normal answer).
  { unfold pattern_check.
    destruct (v_pattern _) as [pattern|] eqn:Hp; [|by eexists].
    destruct (String.eqb pattern "") eqn:Hempty; [by eexists|].
    apply String.eqb_neq in Hempty.
    destruct (Hpattern pattern Hp Hempty) as [test ->]. apply check_normal. }
  destruct (f_type field); rewrite ?Hstr, ?Hnum;
    try unfold mbind, Completion_bind, bind;
    apply first_failure_normal;
    repeat (constructor; [first [exact Hmin|exact Hmax|exact HminL|exact HmaxL
                                |exact Hpat|apply check_normal]|]);
    constructor.
Qed.

Lemma validateField_answers_on_primitives_witness :
  exists answer,
    validateField SmallHost.host (JStr "abc") (pattern_field "abc") = Normal answer.
Proof.
  apply (validateField_answers_on_primitives SmallHost.host (JStr "abc")
           (pattern_field "abc")).
  - reflexivity.
  - intros pattern Hp _. simpl in Hp. injection Hp as <-. by eexists.
Defined.

Lemma createRecord_then_lookup_witness :
  getModelData (fst (createRecord (dataStore (Scenario.server [("r1", Scenario.widget)]))
                       "Product" "r2" {[ "name" := JStr "Gadget" ]})) "Product"
  = (getModelData (dataStore (Scenario.server [("r1", Scenario.widget)])) "Product"
     ++ [snd (createRecord (dataStore (Scenario.server [("r1", Scenario.widget)]))
                "Product" "r2" {[ "name" := JStr "Gadget" ]})])%list.
Proof.
  apply (createRecord_then_lookup
           (dataStore (Scenario.server [("r1", Scenario.widget)]))
           "Product" "r2" {[ "name" := JStr "Gadget" ]}).
  reflexivity.
Defined.

(** The email test on some addresses. *)
Example emailRegex_test_cases :
  emailRegex_test "test@example.com" = true
  /\ emailRegex_test "a@b..c" = true
  /\ emailRegex_test "not-an-email" = false
  /\ emailRegex_test "a@b" = false
  /\ emailRegex_test "a@.com" = false
  /\ emailRegex_test "a b@c.d" = false
  /\ emailRegex_test "a@b@c.d" = false.
Proof. repeat split. Qed.
